(** * Products API: a shallow embedding of the Go service and its
      observability layer

    The development follows the packages of the repository:
    [config] (environment parsing), [domain] (the product entity and its
    validation), [dto], [response] (HTTP error bodies), [telemetry] (the
    trace-correlated log handler and the two provider modes), [memory]
    (the in-memory repository), [service] (the use cases), [handler] (the
    HTTP handlers), [middleware] (the active-requests tracker, the route
    context, the request log and the request metrics) and [main] (the
    wiring).

    Go values are modelled as follows.
    - [string] is Rocq's [string]; [float64] is the primitive binary64
      [float], compared with [PrimFloat.leb] as Go's [<=] does.
    - [map[string]*domain.Product] is a [gmap string ptr]; the pointed-to
      products live in a heap, a list indexed by address, so that aliasing
      between the store and a slice returned by [FindAll] is visible.
    - [uuid.New], [time.Now] and the SDK's span-id generator are effects:
      each is a numbered source of readings, and the world counts the calls.
    - stateful code runs in a small state monad over [World]; a nil or
      dangling pointer dereference (a Go panic) is the monad's failure.
    - a finished span or a recorded measurement is counted as exported at
      the call that hands it to a provider with an exporter (the batching
      of the SDK is left out); the timestamp of a log record is left out.
    - the methods of the repository hold its lock for their whole body, so
      concurrent callers are modelled as a sequence of atomic methods. *)

From Stdlib Require Import ZArith String List PrimFloat.
From stdpp Require Import base option list gmap strings.

Open Scope string_scope.
Open Scope list_scope.

(** ** Package [config] *)

Module config.

Record ServerConfig := mkServerConfig { Port : string; Host : string }.

Record OTLPConfig := mkOTLPConfig {
  Enabled : bool;
  Endpoint : string;
  ServiceName : string;
  Environment : string
}.

Record Config := mkConfig { Server : ServerConfig; OTLP : OTLPConfig }.

(** [os.Getenv]: the value of the variable, or the empty string when the
    variable is not present in the process environment. *)
Definition Getenv (environ : gmap string string) (key : string) : string :=
  default "" (environ !! key).

Definition getEnv (environ : gmap string string)
    (key defaultValue : string) : string :=
  let value := Getenv environ key in
  if bool_decide (value ≠ "") then value else defaultValue.

Definition getEnvBool (environ : gmap string string)
    (key : string) (defaultValue : bool) : bool :=
  let value := Getenv environ key in
  if bool_decide (value ≠ "")
  then bool_decide (value = "true") || bool_decide (value = "1")
       || bool_decide (value = "yes")
  else defaultValue.

Definition LoadConfig (environ : gmap string string) : Config :=
  {| Server := {| Host := getEnv environ "SERVER_HOST" "0.0.0.0";
                  Port := getEnv environ "SERVER_PORT" "8080" |};
     OTLP := {| Enabled := getEnvBool environ "OTEL_ENABLED" true;
                Endpoint := getEnv environ "OTEL_EXPORTER_OTLP_ENDPOINT"
                                   "localhost:4317";
                ServiceName := getEnv environ "OTEL_SERVICE_NAME"
                                      "products-api";
                Environment := getEnv environ "OTEL_ENVIRONMENT"
                                      "development" |} |}.

End config.

(** ** Go values shared by every package *)

Module golang.

(** An [error] value. Errors made by [errors.New] are pointers and Go's
    [==] compares them by identity: [addr] is that identity, [text] is
    what the [Error] method returns. Address [0] is used for error values
    that the program never compares. *)
Inductive error := errorString (addr : nat) (text : string).

Definition Error (e : error) : string :=
  match e with errorString _ text => text end.

#[global] Instance error_eq_dec : EqDecision error.
Proof. solve_decision. Defined.

(** [fmt.Errorf(prefix ++ ": %w", err)]. *)
Definition Errorf (prefix : string) (err : error) : error :=
  errorString 0 (String.append prefix (String.append ": " (Error err))).

(** A [time.Time] instant, as the reading of the clock. *)
Definition Time := Z.

(** The address of a heap object. *)
Definition ptr := nat.

End golang.

(** ** Package [telemetry]

    The standard output stream is threaded explicitly: a handler takes the
    lines written so far and returns them with its own line appended. *)

Module telemetry.
Import golang.

(** [slog.Attr] and [attribute.KeyValue]: a key with a typed value. *)
Inductive Value :=
| String (s : string)
| Int (n : Z)
| Float64 (f : float).

Definition Attr : Type := string * Value.

(** [trace.SpanContext]. A trace or span identifier is modelled by its
    hexadecimal rendering, so the [String] method is the identity; the
    all-zero identifiers are the invalid ones. *)
Record SpanContext := mkSpanContext { TraceID : string; SpanID : string }.

Definition nilTraceID : string := "00000000000000000000000000000000".
Definition nilSpanID : string := "0000000000000000".

Definition IsValid (sc : SpanContext) : bool :=
  bool_decide (TraceID sc ≠ nilTraceID) && bool_decide (SpanID sc ≠ nilSpanID).

(** [context.Context], with the two values this program attaches to it:
    the current span and the value stored under [httpRouteKey]. *)
Record Context := mkContext {
  ctxSpan : option SpanContext;
  ctxHTTPRoute : option string
}.

Definition Background : Context :=
  {| ctxSpan := None; ctxHTTPRoute := None |}.

(** [trace.SpanFromContext(ctx).SpanContext()]: the span context of the
    span in [ctx], the zero span context when there is none. *)
Definition SpanFromContext (ctx : Context) : SpanContext :=
  default {| TraceID := nilTraceID; SpanID := nilSpanID |} (ctxSpan ctx).

Definition ContextWithSpan (ctx : Context) (sc : SpanContext) : Context :=
  {| ctxSpan := Some sc; ctxHTTPRoute := ctxHTTPRoute ctx |}.

Definition WithHTTPRoute (ctx : Context) (route : string) : Context :=
  {| ctxSpan := ctxSpan ctx; ctxHTTPRoute := Some route |}.

Definition HTTPRouteFromContext (ctx : Context) : string :=
  match ctxHTTPRoute ctx with
  | Some route => route
  | None => ""
  end.

Inductive Level := LevelDebug | LevelInfo | LevelWarn | LevelError.

(** [slog.Record] (its timestamp is left out). *)
Record Record_ := mkRecord {
  recLevel : Level;
  recMessage : string;
  recAttrs : list Attr
}.

Definition AddAttrs (r : Record_) (attrs : list Attr) : Record_ :=
  {| recLevel := recLevel r; recMessage := recMessage r;
     recAttrs := recAttrs r ++ attrs |}.

(** One JSON line on the standard output. *)
Record LogLine := mkLogLine {
  lineLevel : Level;
  lineMessage : string;
  lineFields : list Attr
}.

(** [slog.Handler]: the JSON handler of the library, holding the
    attributes given to it by [WithAttrs], or the repository's
    [traceContextHandler] around another handler. *)
Inductive Handler :=
| JSONHandler (attrs : list Attr)
| traceContextHandler (handler : Handler).

Fixpoint Handle (h : Handler) (ctx : Context) (r : Record_)
    (out : list LogLine) : list LogLine :=
  match h with
  | JSONHandler attrs =>
      out ++ [ {| lineLevel := recLevel r; lineMessage := recMessage r;
                  lineFields := attrs ++ recAttrs r |} ]
  | traceContextHandler handler =>
      let span := SpanFromContext ctx in
      let r :=
        if IsValid span
        then AddAttrs r [ ("trace_id", String (TraceID span));
                          ("span_id", String (SpanID span)) ]
        else r in
      let route := HTTPRouteFromContext ctx in
      let r :=
        if bool_decide (route ≠ "")
        then AddAttrs r [ ("http.route", String route) ]
        else r in
      Handle handler ctx r out
  end.

Fixpoint WithAttrs (h : Handler) (attrs : list Attr) : Handler :=
  match h with
  | JSONHandler own => JSONHandler (own ++ attrs)
  | traceContextHandler handler => traceContextHandler (WithAttrs handler attrs)
  end.

(** [*slog.Logger]. Every handler of this program is built with
    [Level: slog.LevelDebug], so every record is enabled. *)
Record Logger := mkLogger { loggerHandler : Handler }.

Definition With (l : Logger) (attrs : list Attr) : Logger :=
  {| loggerHandler := WithAttrs (loggerHandler l) attrs |}.

Definition Log (l : Logger) (ctx : Context) (level : Level) (msg : string)
    (attrs : list Attr) (out : list LogLine) : list LogLine :=
  Handle (loggerHandler l) ctx
         {| recLevel := level; recMessage := msg; recAttrs := attrs |} out.

Definition initLogger (cfg : config.OTLPConfig) : Logger :=
  let jsonHandler := JSONHandler [] in
  let handler := traceContextHandler jsonHandler in
  With {| loggerHandler := handler |}
       [ ("service.name", String (config.ServiceName cfg));
         ("environment", String (config.Environment cfg)) ].

(** The SDK providers, reduced to what distinguishes the two modes: where
    finished spans and recorded measurements are sent. *)
Record TracerProvider := mkTracerProvider {
  traceExporter : option string
}.

Record MeterProvider := mkMeterProvider {
  otlpReader : option string;
  prometheusReader : bool
}.

Record Telemetry := mkTelemetry {
  TracerProvider_ : TracerProvider;
  MeterProvider_ : MeterProvider;
  Logger_ : Logger
}.

(** Outcomes of the constructors that [NewTelemetry] reaches and that are
    not part of the sources: [initTracerProvider] and the library calls
    of [initMeterProvider]. *)
Record Library := mkLibrary {
  initTracerProvider : config.OTLPConfig → error + TracerProvider;
  resource_New : option error;
  grpc_NewClient : string → option error;
  otlpmetricgrpc_New : option error;
  prometheusExporter_New : option error
}.

Definition initMeterProvider (lib : Library) (cfg : config.OTLPConfig)
    : error + MeterProvider :=
  match resource_New lib with
  | Some err => inl (Errorf "failed to create resource" err)
  | None =>
    match grpc_NewClient lib (config.Endpoint cfg) with
    | Some err => inl (Errorf "failed to create gRPC connection" err)
    | None =>
      match otlpmetricgrpc_New lib with
      | Some err => inl (Errorf "failed to create OTLP metric exporter" err)
      | None =>
        match prometheusExporter_New lib with
        | Some err => inl (Errorf "failed to create Prometheus exporter" err)
        | None =>
            inr {| otlpReader := Some (config.Endpoint cfg);
                   prometheusReader := true |}
        end
      end
    end
  end.

Definition NewTelemetry (lib : Library) (cfg : config.OTLPConfig)
    (out : list LogLine) : (error + Telemetry) * list LogLine :=
  let logger := initLogger cfg in
  let out := Log logger Background LevelInfo "Initializing OpenTelemetry"
               [ ("endpoint", String (config.Endpoint cfg));
                 ("service_name", String (config.ServiceName cfg)) ] out in
  match initTracerProvider lib cfg with
  | inl err => (inl (Errorf "failed to initialize tracer provider" err), out)
  | inr tp =>
    let out := Log logger Background LevelInfo
                 "Tracer provider initialized successfully" [] out in
    match initMeterProvider lib cfg with
    | inl err => (inl (Errorf "failed to initialize meter provider" err), out)
    | inr mp =>
      let out := Log logger Background LevelInfo
        "Meter provider initialized successfully (OTLP + Prometheus exporters)"
        [] out in
      (inr {| TracerProvider_ := tp; MeterProvider_ := mp; Logger_ := logger |},
       out)
    end
  end.

Definition NewNoOpTelemetry (cfg : config.OTLPConfig)
    (out : list LogLine) : Telemetry * list LogLine :=
  let logger :=
    With {| loggerHandler := JSONHandler [] |}
         [ ("service.name", String (config.ServiceName cfg));
           ("environment", String (config.Environment cfg)) ] in
  let tp := {| traceExporter := None |} in
  let mp := {| otlpReader := None; prometheusReader := false |} in
  let out := Log logger Background LevelInfo
               "Telemetry initialized in no-op mode (export disabled)" [] out in
  ({| TracerProvider_ := tp; MeterProvider_ := mp; Logger_ := logger |}, out).

End telemetry.

(** ** The program state and the monad of stateful code *)

Module codes.
(** [codes.Code] of the tracing API. *)
Inductive Code := Unset | Error | Ok.
End codes.

Module runtime.
Import golang telemetry.

(** The sources of the three effects that produce fresh values:
    [uuid.New().String()], [time.Now()] and the SDK's identifier
    generator. The n-th call returns the n-th reading. *)
Record Sources := mkSources {
  uuid_source : nat → string;
  clock_source : nat → Time;
  id_source : nat → string
}.

(** What the program did to a span, in call order. *)
Inductive SpanCall :=
| CallSetAttributes (attrs : list Attr)
| CallRecordError (err : error)
| CallSetStatus (code : codes.Code) (description : string)
| CallEnd.

(** The mutable part of a span object. *)
Record Span := mkSpan {
  spanName : string;
  spanContext : SpanContext;
  spanCalls : list SpanCall
}.

(** A span as the program holds it: where its mutable part lives in
    [spans], and the provider of the tracer that started it. *)
Record SpanRef := mkSpanRef {
  spanIndex : nat;
  spanProvider : TracerProvider
}.

Record Measurement := mkMeasurement {
  instrument : string;
  amount : Z;
  labels : list Attr
}.

(** Data leaving the process towards the collector endpoint. *)
Inductive ExportCall :=
| ExportSpan (endpoint : string) (s : Span)
| ExportMeasurement (endpoint : string) (m : Measurement).

Section World.
Context {Obj : Type}.

Record World := mkWorld {
  sources : Sources;
  heap : list Obj;
  products : gmap string ptr;
  uuid_calls : nat;
  clock_calls : nat;
  id_calls : nat;
  spans : list Span;
  stdout : list LogLine;
  measurements : list Measurement;
  exported : list ExportCall
}.

Definition set_heap (f : list Obj → list Obj) (w : World) : World :=
  mkWorld (sources w) (f (heap w)) (products w) (uuid_calls w)
          (clock_calls w) (id_calls w) (spans w) (stdout w)
          (measurements w) (exported w).

Definition set_products (f : gmap string ptr → gmap string ptr)
    (w : World) : World :=
  mkWorld (sources w) (heap w) (f (products w)) (uuid_calls w)
          (clock_calls w) (id_calls w) (spans w) (stdout w)
          (measurements w) (exported w).

Definition set_uuid_calls (f : nat → nat) (w : World) : World :=
  mkWorld (sources w) (heap w) (products w) (f (uuid_calls w))
          (clock_calls w) (id_calls w) (spans w) (stdout w)
          (measurements w) (exported w).

Definition set_clock_calls (f : nat → nat) (w : World) : World :=
  mkWorld (sources w) (heap w) (products w) (uuid_calls w)
          (f (clock_calls w)) (id_calls w) (spans w) (stdout w)
          (measurements w) (exported w).

Definition set_id_calls (f : nat → nat) (w : World) : World :=
  mkWorld (sources w) (heap w) (products w) (uuid_calls w)
          (clock_calls w) (f (id_calls w)) (spans w) (stdout w)
          (measurements w) (exported w).

Definition set_spans (f : list Span → list Span) (w : World) : World :=
  mkWorld (sources w) (heap w) (products w) (uuid_calls w)
          (clock_calls w) (id_calls w) (f (spans w)) (stdout w)
          (measurements w) (exported w).

Definition set_stdout (f : list LogLine → list LogLine) (w : World) : World :=
  mkWorld (sources w) (heap w) (products w) (uuid_calls w)
          (clock_calls w) (id_calls w) (spans w) (f (stdout w))
          (measurements w) (exported w).

Definition set_measurements (f : list Measurement → list Measurement)
    (w : World) : World :=
  mkWorld (sources w) (heap w) (products w) (uuid_calls w)
          (clock_calls w) (id_calls w) (spans w) (stdout w)
          (f (measurements w)) (exported w).

Definition set_exported (f : list ExportCall → list ExportCall)
    (w : World) : World :=
  mkWorld (sources w) (heap w) (products w) (uuid_calls w)
          (clock_calls w) (id_calls w) (spans w) (stdout w)
          (measurements w) (f (exported w)).

(** A computation: from a world to a result and the next world, or to
    [None] when the Go code panics on a nil or dangling pointer. *)
Definition M (A : Type) : Type := World → option (A * World).

Definition ret {A} (a : A) : M A := λ w, Some (a, w).

Definition bind {A B} (m : M A) (k : A → M B) : M B :=
  λ w, match m w with
       | Some (a, w') => k a w'
       | None => None
       end.

Definition modify (f : World → World) : M unit := λ w, Some (tt, f w).

Definition gets {A} (f : World → A) : M A := λ w, Some (f w, w).

Definition panic {A} : M A := λ _, None.

(** [&T{...}]: a fresh object at the next free address. *)
Definition new (o : Obj) : M ptr :=
  λ w, Some (length (heap w), set_heap (λ h, h ++ [o]) w).

(** [*p]. *)
Definition load (p : ptr) : M Obj :=
  λ w, match heap w !! p with
       | Some o => Some (o, w)
       | None => None
       end.

Definition uuid_New : M string :=
  λ w, Some (uuid_source (sources w) (uuid_calls w), set_uuid_calls S w).

Definition time_Now : M Time :=
  λ w, Some (clock_source (sources w) (clock_calls w), set_clock_calls S w).

Definition newID : M string :=
  λ w, Some (id_source (sources w) (id_calls w), set_id_calls S w).

End World.

Arguments World : clear implicits.
Arguments M : clear implicits.

Notation "'let*' x ':=' m 'in' k" := (bind m (λ x, k))
  (at level 10, x pattern, m at level 100, k at level 200).
Notation "m ';;' k" := (bind m (λ _, k))
  (at level 100, k at level 200, right associativity).

Section Telemetry.
Context {Obj : Type}.
#[local] Abbreviation M := (M Obj).

(** [logger.Log(ctx, level, msg, attrs...)]. *)
Definition LogContext (l : Logger) (ctx : Context) (level : Level)
    (msg : string) (attrs : list Attr) : M unit :=
  modify (set_stdout (Log l ctx level msg attrs)).

Definition DebugContext l ctx msg attrs : M unit :=
  LogContext l ctx LevelDebug msg attrs.
Definition InfoContext l ctx msg attrs : M unit :=
  LogContext l ctx LevelInfo msg attrs.
Definition WarnContext l ctx msg attrs : M unit :=
  LogContext l ctx LevelWarn msg attrs.
Definition ErrorContext l ctx msg attrs : M unit :=
  LogContext l ctx LevelError msg attrs.

(** [trace.Tracer], obtained by [TracerProvider.Tracer(name)]. *)
Record Tracer := mkTracer {
  tracerProvider : TracerProvider;
  tracerName : string
}.

(** [tracer.Start(ctx, name)]: a new span, child of the span of [ctx]
    when that one is valid, the root of a new trace otherwise. *)
Definition Start (t : Tracer) (ctx : Context) (name : string)
    : M (Context * SpanRef) :=
  let parent := SpanFromContext ctx in
  let* tid := (if IsValid parent then ret (TraceID parent) else newID) in
  let* sid := newID in
  let sc := {| TraceID := tid; SpanID := sid |} in
  λ w, Some ((ContextWithSpan ctx sc,
              {| spanIndex := length (spans w);
                 spanProvider := tracerProvider t |}),
             set_spans (λ l, l ++ [ {| spanName := name; spanContext := sc;
                                         spanCalls := [] |} ]) w).

Definition span_call (span : SpanRef) (c : SpanCall) : M unit :=
  modify (set_spans (alter (λ s, {| spanName := spanName s;
                                     spanContext := spanContext s;
                                     spanCalls := spanCalls s ++ [c] |})
                           (spanIndex span))).

Definition SetAttributes (span : SpanRef) (attrs : list Attr) : M unit :=
  span_call span (CallSetAttributes attrs).
Definition RecordError (span : SpanRef) (err : error) : M unit :=
  span_call span (CallRecordError err).
Definition SetStatus (span : SpanRef) (code : codes.Code) (d : string)
    : M unit :=
  span_call span (CallSetStatus code d).

(** [span.End()]: the finished span goes to the provider's exporter,
    when it has one. *)
Definition span_End (span : SpanRef) : M unit :=
  span_call span CallEnd ;;
  match traceExporter (spanProvider span) with
  | Some endpoint =>
      modify (λ w, set_exported
                     (λ l, l ++ (ExportSpan endpoint <$>
                                   option_list (spans w !! spanIndex span))) w)
  | None => ret tt
  end.

(** [metric.Meter] and the counters it creates. *)
Record Meter := mkMeter {
  meterProvider : MeterProvider;
  meterName : string
}.

Record Int64Counter := mkInt64Counter {
  counterName : string;
  counterProvider : MeterProvider
}.

Definition NewInt64Counter (m : Meter) (name : string) : Int64Counter :=
  {| counterName := name; counterProvider := meterProvider m |}.

(** [counter.Add(ctx, n, attrs)]: the measurement is recorded, and
    leaves the process when the provider has an OTLP reader. *)
Definition Add (c : Int64Counter) (ctx : Context) (n : Z)
    (attrs : list Attr) : M unit :=
  let m := {| instrument := counterName c; amount := n; labels := attrs |} in
  modify (set_measurements (λ l, l ++ [m])) ;;
  match otlpReader (counterProvider c) with
  | Some endpoint => modify (set_exported (λ l, l ++ [ExportMeasurement endpoint m]))
  | None => ret tt
  end.

End Telemetry.

End runtime.

(** ** Package [domain] *)

Module domain.
Import golang telemetry runtime.

Definition ErrInvalidProductName : error :=
  errorString 1 "product name is required".
Definition ErrInvalidProductPrice : error :=
  errorString 2 "product price must be positive".
Definition ErrProductNotFound : error :=
  errorString 3 "product not found".

Record Product := mkProduct {
  ID : string;
  Name : string;
  Description : string;
  Price : float;
  CreatedAt : Time;
  UpdatedAt : Time
}.

Abbreviation M := (runtime.M Product).

(** [(p *Product) Validate()]; [None] is the nil error. *)
Definition Validate (p : ptr) : M (option error) :=
  let* this := load p in
  if bool_decide (Name this = "") then ret (Some ErrInvalidProductName)
  else if PrimFloat.leb (Price this) 0 then ret (Some ErrInvalidProductPrice)
  else ret None.

(** [NewProduct]: the fields of the composite literal are evaluated in
    order, so the clock is read twice. *)
Definition NewProduct (name description : string) (price : float)
    : M (error + ptr) :=
  let* id := uuid_New in
  let* createdAt := time_Now in
  let* updatedAt := time_Now in
  let* product := new {| ID := id; Name := name; Description := description;
                         Price := price; CreatedAt := createdAt;
                         UpdatedAt := updatedAt |} in
  let* err := Validate product in
  match err with
  | Some err => ret (inl err)
  | None => ret (inr product)
  end.

(** The [ProductRepository] interface. A Go result [(v, err)] is the sum
    [inr v] when [err] is nil and [inl err] otherwise. *)
Class ProductRepository (R : Type) := {
  Create : R → Context → ptr → M (option error);
  FindByID : R → Context → string → M (error + ptr);
  FindAll : R → Context → M (error + list ptr)
}.

End domain.

(** ** Package [dto] *)

Module dto.
Import golang runtime.

Record CreateProductRequest := mkCreateProductRequest {
  Name : string;
  Description : string;
  Price : float
}.

Record ProductResponse := mkProductResponse {
  ID : string;
  RespName : string;
  RespDescription : string;
  RespPrice : float;
  CreatedAt : Time;
  UpdatedAt : Time
}.

Definition ToProductResponse (p : ptr) : domain.M ProductResponse :=
  let* this := load p in
  ret {| ID := domain.ID this;
         RespName := domain.Name this;
         RespDescription := domain.Description this;
         RespPrice := domain.Price this;
         CreatedAt := domain.CreatedAt this;
         UpdatedAt := domain.UpdatedAt this |}.

Fixpoint ToProductResponseList (products : list ptr)
    : domain.M (list ProductResponse) :=
  match products with
  | [] => ret []
  | p :: rest =>
      let* response := ToProductResponse p in
      let* responses := ToProductResponseList rest in
      ret (response :: responses)
  end.

End dto.

(** ** Package [memory]: the in-memory repository

    The map [r.products] is the [products] component of the world. Every
    method holds the lock of [r.mu] for its whole body, so a method is one
    atomic step and concurrent callers are a sequence of such steps. *)

Module memory.
Import golang telemetry runtime.

Record ProductRepository := mkProductRepository {
  tracer : Tracer;
  logger : Logger
}.

Definition NewProductRepository (tracer : Tracer) (logger : Logger)
    : domain.M ProductRepository :=
  modify (set_products (λ _, ∅)) ;;
  ret {| tracer := tracer; logger := logger |}.

Definition Create (r : ProductRepository) (ctx : Context) (product : ptr)
    : domain.M (option error) :=
  let* (ctx, span) := Start (tracer r) ctx "ProductRepository.Create" in
  let* this := load product in
  SetAttributes span [ ("product.id", String (domain.ID this));
                       ("product.name", String (domain.Name this)) ] ;;
  modify (set_products (<[ domain.ID this := product ]>)) ;;
  InfoContext (logger r) ctx "Product created in repository"
    [ ("product_id", String (domain.ID this));
      ("product_name", String (domain.Name this)) ] ;;
  SetStatus span codes.Ok "Product created successfully" ;;
  span_End span ;;
  ret None.

Definition FindByID (r : ProductRepository) (ctx : Context) (id : string)
    : domain.M (error + ptr) :=
  let* (ctx, span) := Start (tracer r) ctx "ProductRepository.FindByID" in
  SetAttributes span [ ("product.id", String id) ] ;;
  let* found := gets (λ w, products w !! id) in
  match found with
  | None =>
      RecordError span domain.ErrProductNotFound ;;
      SetStatus span codes.Error "Product not found" ;;
      WarnContext (logger r) ctx "Product not found"
        [ ("product_id", String id) ] ;;
      span_End span ;;
      ret (inl domain.ErrProductNotFound)
  | Some product =>
      let* this := load product in
      DebugContext (logger r) ctx "Product found in repository"
        [ ("product_id", String id);
          ("product_name", String (domain.Name this)) ] ;;
      SetStatus span codes.Ok "Product found" ;;
      span_End span ;;
      ret (inr product)
  end.

(** [FindAll]: a new slice filled by ranging over the map. Go leaves the
    iteration order unspecified; the model takes the order of
    [map_to_list], and no statement below depends on it. *)
Definition FindAll (r : ProductRepository) (ctx : Context)
    : domain.M (error + list ptr) :=
  let* (ctx, span) := Start (tracer r) ctx "ProductRepository.FindAll" in
  let* products := gets (λ w, (map_to_list (products w)).*2) in
  SetAttributes span [ ("product.count", Int (Z.of_nat (length products))) ] ;;
  InfoContext (logger r) ctx "Products retrieved from repository"
    [ ("count", Int (Z.of_nat (length products))) ] ;;
  SetStatus span codes.Ok "Products retrieved successfully" ;;
  span_End span ;;
  ret (inr products).

#[global] Instance memory_repository : domain.ProductRepository ProductRepository :=
  {| domain.Create := Create;
     domain.FindByID := FindByID;
     domain.FindAll := FindAll |}.

End memory.

(** ** Package [service]: the use cases

    [defer span.End()] runs when the function returns: [End] is the last
    step of every path. *)

Module service.
Import golang telemetry runtime.

Record ProductService (R : Type) := mkProductService {
  repo : R;
  tracer : Tracer;
  logger : Logger;
  productCreatedCounter : Int64Counter;
  productOperations : Int64Counter
}.
Arguments repo {R}.
Arguments tracer {R}.
Arguments logger {R}.
Arguments productCreatedCounter {R}.
Arguments productOperations {R}.

Definition NewProductService {R} (repo : R) (tracer : Tracer) (meter : Meter)
    (logger : Logger) : ProductService R :=
  let productCreatedCounter := NewInt64Counter meter "products.created.total" in
  let productOperations := NewInt64Counter meter "products.operations" in
  {| repo := repo; tracer := tracer; logger := logger;
     productCreatedCounter := productCreatedCounter;
     productOperations := productOperations |}.

Section UseCases.
Context {R : Type} `{!domain.ProductRepository R}.

Definition CreateProduct (s : ProductService R) (ctx : Context)
    (req : dto.CreateProductRequest) : domain.M (error + dto.ProductResponse) :=
  let* (ctx, span) := Start (tracer s) ctx "ProductService.CreateProduct" in
  SetAttributes span [ ("product.name", String (dto.Name req));
                       ("product.price", Float64 (dto.Price req)) ] ;;
  InfoContext (logger s) ctx "Creating product"
    [ ("name", String (dto.Name req));
      ("price", Float64 (dto.Price req)) ] ;;
  let* created := domain.NewProduct (dto.Name req) (dto.Description req)
                                    (dto.Price req) in
  match created with
  | inl err =>
      RecordError span err ;;
      SetStatus span codes.Error "Validation failed" ;;
      ErrorContext (logger s) ctx "Failed to create product"
        [ ("error", String (Error err)) ] ;;
      Add (productOperations s) ctx 1
        [ ("operation", String "create"); ("result", String "failure") ] ;;
      span_End span ;;
      ret (inl err)
  | inr product =>
      let* this := load product in
      SetAttributes span [ ("product.id", String (domain.ID this)) ] ;;
      let* err := domain.Create (repo s) ctx product in
      match err with
      | Some err =>
          RecordError span err ;;
          SetStatus span codes.Error "Failed to store product" ;;
          ErrorContext (logger s) ctx "Failed to store product"
            [ ("error", String (Error err)) ] ;;
          Add (productOperations s) ctx 1
            [ ("operation", String "create"); ("result", String "failure") ] ;;
          span_End span ;;
          ret (inl err)
      | None =>
          Add (productCreatedCounter s) ctx 1 [] ;;
          Add (productOperations s) ctx 1
            [ ("operation", String "create"); ("result", String "success") ] ;;
          let* this := load product in
          InfoContext (logger s) ctx "Product created successfully"
            [ ("product_id", String (domain.ID this)) ] ;;
          SetStatus span codes.Ok "Product created successfully" ;;
          let* response := dto.ToProductResponse product in
          span_End span ;;
          ret (inr response)
      end
  end.

Definition GetProductByID (s : ProductService R) (ctx : Context)
    (id : string) : domain.M (error + dto.ProductResponse) :=
  let* (ctx, span) := Start (tracer s) ctx "ProductService.GetProductByID" in
  SetAttributes span [ ("product.id", String id) ] ;;
  InfoContext (logger s) ctx "Getting product by ID"
    [ ("product_id", String id) ] ;;
  let* found := domain.FindByID (repo s) ctx id in
  match found with
  | inl err =>
      RecordError span err ;;
      SetStatus span codes.Error "Product not found" ;;
      WarnContext (logger s) ctx "Product not found"
        [ ("product_id", String id) ] ;;
      Add (productOperations s) ctx 1
        [ ("operation", String "read"); ("result", String "not_found") ] ;;
      span_End span ;;
      ret (inl err)
  | inr product =>
      Add (productOperations s) ctx 1
        [ ("operation", String "read"); ("result", String "success") ] ;;
      InfoContext (logger s) ctx "Product retrieved successfully"
        [ ("product_id", String id) ] ;;
      SetStatus span codes.Ok "Product retrieved successfully" ;;
      let* response := dto.ToProductResponse product in
      span_End span ;;
      ret (inr response)
  end.

Definition ListProducts (s : ProductService R) (ctx : Context)
    : domain.M (error + list dto.ProductResponse) :=
  let* (ctx, span) := Start (tracer s) ctx "ProductService.ListProducts" in
  InfoContext (logger s) ctx "Listing all products" [] ;;
  let* found := domain.FindAll (repo s) ctx in
  match found with
  | inl err =>
      RecordError span err ;;
      SetStatus span codes.Error "Failed to retrieve products" ;;
      ErrorContext (logger s) ctx "Failed to list products"
        [ ("error", String (Error err)) ] ;;
      Add (productOperations s) ctx 1
        [ ("operation", String "list"); ("result", String "failure") ] ;;
      span_End span ;;
      ret (inl err)
  | inr products =>
      SetAttributes span
        [ ("product.count", Int (Z.of_nat (length products))) ] ;;
      Add (productOperations s) ctx 1
        [ ("operation", String "list"); ("result", String "success") ] ;;
      InfoContext (logger s) ctx "Products listed successfully"
        [ ("count", Int (Z.of_nat (length products))) ] ;;
      SetStatus span codes.Ok "Products listed successfully" ;;
      let* responses := dto.ToProductResponseList products in
      span_End span ;;
      ret (inr responses)
  end.

End UseCases.

End service.

(** ** Package [response]

    A handler talks to its [http.ResponseWriter] through three calls; what
    a handler does to the writer is the sequence of its calls. The bytes of
    a JSON body are modelled by the value that was encoded. *)

Module response.
Import golang.

Definition StatusOK : Z := 200.
Definition StatusCreated : Z := 201.
Definition StatusBadRequest : Z := 400.
Definition StatusNotFound : Z := 404.
Definition StatusInternalServerError : Z := 500.

Record ErrorResponse := mkErrorResponse {
  ErrorLabel : string;
  Message : string
}.

Inductive Payload :=
| JSONError (e : ErrorResponse)
| JSONProduct (p : dto.ProductResponse)
| JSONProducts (ps : list dto.ProductResponse)
| Bytes (b : string).

Inductive WriterCall :=
| HeaderSet (key value : string)
| WriteHeader (statusCode : Z)
| Write (data : Payload).

Definition JSON (status : Z) (data : Payload) : list WriterCall :=
  [ HeaderSet "Content-Type" "application/json";
    WriteHeader status;
    Write data ].

Definition Error (status : Z) (err : error) : list WriterCall :=
  let errorType :=
    if bool_decide (status = StatusNotFound) then "not_found"
    else if bool_decide (status = StatusBadRequest) then "bad_request"
    else if bool_decide (status = StatusInternalServerError)
         then "internal_server_error"
    else "error" in
  JSON status (JSONError {| ErrorLabel := errorType;
                            Message := golang.Error err |}).

End response.

(** ** Package [handler] *)

Module handler.
Import golang telemetry runtime response.

Record ProductHandler (R : Type) := mkProductHandler {
  service_ : service.ProductService R;
  logger : Logger
}.
Arguments service_ {R}.
Arguments logger {R}.

Definition NewProductHandler {R} (s : service.ProductService R)
    (logger : Logger) : ProductHandler R :=
  {| service_ := s; logger := logger |}.

Section Handlers.
Context {R : Type} `{!domain.ProductRepository R}.

(** [body] is the outcome of decoding the request body. *)
Definition CreateProduct (h : ProductHandler R) (ctx : Context)
    (body : error + dto.CreateProductRequest) : domain.M (list WriterCall) :=
  match body with
  | inl err =>
      ErrorContext (logger h) ctx "Failed to decode request body"
        [ ("error", String (golang.Error err)) ] ;;
      ret (response.Error StatusBadRequest err)
  | inr req =>
      let* result := service.CreateProduct (service_ h) ctx req in
      match result with
      | inl err =>
          if bool_decide (err = domain.ErrInvalidProductName
                          ∨ err = domain.ErrInvalidProductPrice)
          then ret (response.Error StatusBadRequest err)
          else ret (response.Error StatusInternalServerError err)
      | inr product => ret (JSON StatusCreated (JSONProduct product))
      end
  end.

(** [id] is [chi.URLParam(r, "id")]. *)
Definition GetProduct (h : ProductHandler R) (ctx : Context) (id : string)
    : domain.M (list WriterCall) :=
  let* result := service.GetProductByID (service_ h) ctx id in
  match result with
  | inl err =>
      if bool_decide (err = domain.ErrProductNotFound)
      then ret (response.Error StatusNotFound err)
      else ret (response.Error StatusInternalServerError err)
  | inr product => ret (JSON StatusOK (JSONProduct product))
  end.

Definition ListProducts (h : ProductHandler R) (ctx : Context)
    : domain.M (list WriterCall) :=
  let* result := service.ListProducts (service_ h) ctx in
  match result with
  | inl err => ret (response.Error StatusInternalServerError err)
  | inr products => ret (JSON StatusOK (JSONProducts products))
  end.

End Handlers.

End handler.

(** ** Package [middleware]: the active-requests tracker

    The chi route context of a request is one mutable object, reachable
    from [r.Context()] and written by the router while it matches the
    request; it is part of the state shared by the middleware and the
    handler chain behind it. *)

Module middleware.
Import golang telemetry runtime response.

Record Request := mkRequest {
  Method : string;
  URLPath : string;
  Host : string
}.

Record Conn := mkConn {
  (** [chi.RouteContext(r.Context())]: [None] when there is no route
      context, [Some p] when its [RoutePattern()] currently returns [p]. *)
  rctx : option string;
  (** the calls of [activeRequests.Add], in call order *)
  adds : list Measurement;
  (** the calls that reached the embedded [http.ResponseWriter] *)
  written : list WriterCall
}.

Definition set_rctx (f : option string → option string) (c : Conn) : Conn :=
  {| rctx := f (rctx c); adds := adds c; written := written c |}.
Definition set_adds (f : list Measurement → list Measurement) (c : Conn) : Conn :=
  {| rctx := rctx c; adds := f (adds c); written := written c |}.
Definition set_written (f : list WriterCall → list WriterCall) (c : Conn) : Conn :=
  {| rctx := rctx c; adds := adds c; written := f (written c) |}.

(** [activeRequests.Add(ctx, n, metric.WithAttributes(attrs...))]. *)
Definition activeRequests_Add (n : Z) (attrs : list Attr) (c : Conn) : Conn :=
  set_adds (λ l, l ++ [ {| instrument := "http.server.active_requests";
                           amount := n; labels := attrs |} ]) c.

Record routeAwareWriter := mkRouteAwareWriter {
  request : Request;
  incrementDone : bool;
  decrementDone : bool
}.

Definition incrementIfNeeded (w : routeAwareWriter) (c : Conn)
    : routeAwareWriter * Conn :=
  if incrementDone w then (w, c)
  else
    let w := {| request := request w; incrementDone := true;
                decrementDone := decrementDone w |} in
    let routePattern := URLPath (request w) in
    let routePattern :=
      match rctx c with
      | Some pattern => if bool_decide (pattern ≠ "") then pattern else routePattern
      | None => routePattern
      end in
    let attrs := [ ("http.request.method", String (Method (request w)));
                   ("http.route", String routePattern);
                   ("server.address", String (Host (request w))) ] in
    (w, activeRequests_Add 1 attrs c).

Definition ensureDecrement (w : routeAwareWriter) (c : Conn)
    : routeAwareWriter * Conn :=
  if decrementDone w then (w, c)
  else
    let w := {| request := request w; incrementDone := incrementDone w;
                decrementDone := true |} in
    let '(w, c) := if negb (incrementDone w) then incrementIfNeeded w c
                   else (w, c) in
    let routePattern := URLPath (request w) in
    let routePattern :=
      match rctx c with
      | Some pattern => if bool_decide (pattern ≠ "") then pattern else routePattern
      | None => routePattern
      end in
    let attrs := [ ("http.request.method", String (Method (request w)));
                   ("http.route", String routePattern);
                   ("server.address", String (Host (request w))) ] in
    (w, activeRequests_Add (-1) attrs c).

Definition routeAwareWriter_WriteHeader (statusCode : Z)
    (w : routeAwareWriter) (c : Conn) : routeAwareWriter * Conn :=
  let '(w, c) := incrementIfNeeded w c in
  (w, set_written (λ l, l ++ [WriteHeader statusCode]) c).

Definition routeAwareWriter_Write (b : Payload)
    (w : routeAwareWriter) (c : Conn) : routeAwareWriter * Conn :=
  let '(w, c) := incrementIfNeeded w c in
  (w, set_written (λ l, l ++ [Write b]) c).

(** One step of the handler chain behind the middleware: the router
    records the pattern it has matched so far, or the chain calls the
    response writer it was given. *)
Inductive Step :=
| Route (pattern : string)
| Call (call : WriterCall).

Definition routed (pattern : string) (c : Conn) : Conn :=
  set_rctx (λ o, match o with Some _ => Some pattern | None => None end) c.

(** A step against the wrapper. [Header] is not overridden: it is the
    method of the embedded writer. *)
Definition step (s : Step) (w : routeAwareWriter) (c : Conn)
    : routeAwareWriter * Conn :=
  match s with
  | Route pattern => (w, routed pattern c)
  | Call (HeaderSet k v) => (w, set_written (λ l, l ++ [HeaderSet k v]) c)
  | Call (WriteHeader statusCode) => routeAwareWriter_WriteHeader statusCode w c
  | Call (Write b) => routeAwareWriter_Write b w c
  end.

(** [next.ServeHTTP(wrapper, r)] for a chain that returns. *)
Fixpoint ServeHTTP (next : list Step) (w : routeAwareWriter) (c : Conn)
    : routeAwareWriter * Conn :=
  match next with
  | [] => (w, c)
  | s :: rest => let '(w, c) := step s w c in ServeHTTP rest w c
  end.

(** [next.ServeHTTP(w, r)] against the writer itself. *)
Fixpoint ServeHTTP_direct (next : list Step) (c : Conn) : Conn :=
  match next with
  | [] => c
  | Route pattern :: rest => ServeHTTP_direct rest (routed pattern c)
  | Call call :: rest => ServeHTTP_direct rest (set_written (λ l, l ++ [call]) c)
  end.

(** The handler returned by [ActiveRequestsMiddleware(meter)(next)];
    [created] is the error of [meter.Int64UpDownCounter]. *)
Definition ActiveRequestsMiddleware (created : option error)
    (next : list Step) (r : Request) (c : Conn) : Conn :=
  match created with
  | Some _ => ServeHTTP_direct next c
  | None =>
      let wrapper := {| request := r; incrementDone := false;
                        decrementDone := false |} in
      let '(wrapper, c) := ServeHTTP next wrapper c in
      snd (ensureDecrement wrapper c)
  end.

(** Does the chain write to the response (status line or body)? *)
Definition writes (s : Step) : bool :=
  match s with
  | Call (WriteHeader _) | Call (Write _) => true
  | _ => false
  end.

End middleware.

(** ** Package [main]: wiring *)

Module main.
Import golang telemetry runtime.

(** The telemetry of the process; [None] is the exit of [log.Fatalf]. *)
Definition telemetryOf (lib : Library) (cfg : config.Config)
    (out : list LogLine) : option Telemetry * list LogLine :=
  if config.Enabled (config.OTLP cfg)
  then match NewTelemetry lib (config.OTLP cfg) out with
       | (inl _, out) => (None, out)
       | (inr telem, out) => (Some telem, out)
       end
  else let '(telem, out) := NewNoOpTelemetry (config.OTLP cfg) out in
       (Some telem, out).

Definition wire (telem : Telemetry)
    : domain.M (handler.ProductHandler memory.ProductRepository) :=
  let tracer := {| tracerProvider := TracerProvider_ telem;
                   tracerName := "products-api" |} in
  let meter := {| meterProvider := MeterProvider_ telem;
                  meterName := "products-api" |} in
  let logger := Logger_ telem in
  InfoContext logger Background "Starting Products API" [] ;;
  let* repo := memory.NewProductRepository tracer logger in
  let productService := service.NewProductService repo tracer meter logger in
  ret (handler.NewProductHandler productService logger).

(** The routes of [setupRoutes] that reach the product handler. *)
Inductive Request :=
| PostProducts (body : error + dto.CreateProductRequest)
| GetProducts
| GetProductByID (id : string).

Definition serve (h : handler.ProductHandler memory.ProductRepository)
    (ctx : Context) (req : Request) : domain.M (list response.WriterCall) :=
  match req with
  | PostProducts body => handler.CreateProduct h ctx body
  | GetProducts => handler.ListProducts h ctx
  | GetProductByID id => handler.GetProduct h ctx id
  end.

Fixpoint serveAll (h : handler.ProductHandler memory.ProductRepository)
    (reqs : list (Context * Request))
    : domain.M (list (list response.WriterCall)) :=
  match reqs with
  | [] => ret []
  | (ctx, req) :: rest =>
      let* resp := serve h ctx req in
      let* resps := serveAll h rest in
      ret (resp :: resps)
  end.

End main.

(** ** Package [middleware]: the route context and the request log *)

Module http_middleware.
Import golang telemetry runtime response middleware.

(** [HTTPRouteContext()(next)]. [c] holds the chi route context as it is
    when the middleware runs, [ctx] is [r.Context()], and [next] is run on
    the context that carries the route. *)
Definition HTTPRouteContext {A} (next : Context → A) (r : Request) (c : Conn)
    (ctx : Context) : A :=
  let routePattern := URLPath r in
  let routePattern :=
    match rctx c with
    | Some pattern => if bool_decide (pattern ≠ "") then pattern else routePattern
    | None => routePattern
    end in
  let ctx := WithHTTPRoute ctx routePattern in
  next ctx.

(** What the request log and the tracing middleware read of an
    [*http.Request] besides method, path and host: [r.URL.RawQuery],
    [r.URL.String()], [r.RemoteAddr] and [r.UserAgent()]. *)
Record HTTPRequest := mkHTTPRequest {
  line : Request;
  RawQuery : string;
  URL_String : string;
  RemoteAddr : string;
  UserAgent : string
}.

(** What the middleware reads once the chain has returned: [ww.Status()]
    and [ww.BytesWritten()] of chi's wrapping writer, and the chi route
    context as it is by then. *)
Record Served := mkServed {
  Status : Z;
  BytesWritten : Z;
  servedRctx : option string
}.

(** The two conversions of the standard library that the log line uses:
    [time.Duration.String] and [float64] of an [int64]. *)
Record TimeLib := mkTimeLib {
  Duration_String : Z → string;
  float64 : Z → float
}.

(** [StructuredLogger(logger)(next)]; readings of the clock are in
    nanoseconds, and [Milliseconds] divides truncating. *)
Definition StructuredLogger {Obj} (lib : TimeLib) (logger : Logger)
    (next : M Obj Served) (r : HTTPRequest) (ctx : Context) : M Obj unit :=
  let* start := time_Now in
  let* ww := next in
  let* now := time_Now in
  let duration := (now - start)%Z in
  let spanCtx := SpanFromContext ctx in
  let routePattern := URLPath (line r) in
  let routePattern :=
    match servedRctx ww with
    | Some pattern => if bool_decide (pattern ≠ "") then pattern else routePattern
    | None => routePattern
    end in
  let attrs :=
    [ ("http.request.method", String (Method (line r)));
      ("http.route", String routePattern);
      ("url.path", String (URLPath (line r)));
      ("url.query", String (RawQuery r));
      ("http.response.status_code", Int (Status ww));
      ("http.response.body.size", Int (BytesWritten ww));
      ("duration", String (Duration_String lib duration));
      ("duration_ms", Float64 (float64 lib (duration ÷ 1000000)%Z));
      ("client.address", String (RemoteAddr r));
      ("user_agent", String (UserAgent r)) ] in
  let attrs :=
    if IsValid spanCtx
    then attrs ++ [ ("trace_id", String (TraceID spanCtx));
                    ("span_id", String (SpanID spanCtx)) ]
    else attrs in
  let logLevel :=
    if bool_decide (500 ≤ Status ww)%Z then LevelError
    else if bool_decide (400 ≤ Status ww)%Z then LevelWarn
    else LevelInfo in
  LogContext logger ctx logLevel "HTTP request completed" attrs.

End http_middleware.

(** ** Package [middleware], first revision: request metrics *)

Module otel_middleware.
Import golang telemetry runtime response middleware.

(** [responseWriter]: the embedded writer with the captured status code. *)
Record responseWriter := mkResponseWriter { statusCode : Z }.

Definition responseWriter_WriteHeader (code : Z) (rw : responseWriter)
    : responseWriter :=
  {| statusCode := code |}.

(** The calls of a chain against the wrapper: [WriteHeader] is the
    wrapper's own method, [Header] and [Write] are those of the embedded
    writer. Every call reaches the embedded writer as it is. *)
Fixpoint served (calls : list WriterCall) (rw : responseWriter)
    : responseWriter :=
  match calls with
  | [] => rw
  | WriteHeader code :: rest => served rest (responseWriter_WriteHeader code rw)
  | _ :: rest => served rest rw
  end.

(** [metric.Int64Histogram]. *)
Record Int64Histogram := mkInt64Histogram {
  histogramName : string;
  histogramProvider : MeterProvider
}.

Definition NewInt64Histogram (m : Meter) (name : string) : Int64Histogram :=
  {| histogramName := name; histogramProvider := meterProvider m |}.

(** [histogram.Record(ctx, value, attrs)]. *)
Definition Histogram_Record {Obj} (h : Int64Histogram) (ctx : Context) (value : Z)
    (attrs : list Attr) : M Obj unit :=
  let m := {| instrument := histogramName h; amount := value;
              labels := attrs |} in
  modify (set_measurements (λ l, l ++ [m])) ;;
  match otlpReader (histogramProvider h) with
  | Some endpoint =>
      modify (set_exported (λ l, l ++ [ExportMeasurement endpoint m]))
  | None => ret tt
  end.

(** [MetricsMiddleware(meter)(next)]; [next] returns the calls the chain
    made on the writer it was given. The code discards the errors of the
    two instrument constructors; the instruments are taken as created. *)
Definition MetricsMiddleware {Obj} (meter : Meter)
    (next : M Obj (list WriterCall)) (r : Request) (ctx : Context)
    : M Obj (list WriterCall) :=
  let requestCounter := NewInt64Counter meter "http.server.request.count" in
  let requestDuration :=
    NewInt64Histogram meter "http.server.request.duration" in
  let* start := time_Now in
  let rw := {| statusCode := StatusOK |} in
  let* calls := next in
  let rw := served calls rw in
  let* now := time_Now in
  let duration := ((now - start) ÷ 1000000)%Z in
  let attrs := [ ("http.method", String (Method r));
                 ("http.route", String (URLPath r));
                 ("http.status_code", Int (statusCode rw)) ] in
  Add requestCounter ctx 1 attrs ;;
  Histogram_Record requestDuration ctx duration attrs ;;
  ret calls.

(** [TracingMiddleware(tracer)(next)]; [next] is run on the context that
    carries the new span. The deferred [span.End()] runs when the chain
    has returned and the status code has been set on the span. *)
Definition TracingMiddleware {Obj} (tracer : Tracer)
    (next : Context → M Obj (list WriterCall))
    (r : http_middleware.HTTPRequest) (ctx : Context)
    : M Obj (list WriterCall) :=
  let line := http_middleware.line r in
  let* (ctx, span) :=
    Start tracer ctx
      (String.append "HTTP "
         (String.append (Method line) (String.append " " (URLPath line)))) in
  SetAttributes span
    [ ("http.method", String (Method line));
      ("http.url", String (http_middleware.URL_String r));
      ("http.route", String (URLPath line));
      ("http.user_agent", String (http_middleware.UserAgent r)) ] ;;
  let rw := {| statusCode := StatusOK |} in
  let* calls := next ctx in
  let rw := served calls rw in
  SetAttributes span [ ("http.status_code", Int (statusCode rw)) ] ;;
  span_End span ;;
  ret calls.

End otel_middleware.

(** ** Package [telemetry]: shutdown *)

Module lifecycle.
Import golang telemetry.

Inductive ShutdownCall :=
| TracerProviderShutdown
| MeterProviderShutdown.

(** [(t *Telemetry) Shutdown(ctx)]. The outcomes of the two providers'
    own [Shutdown] are [tpErr] and [mpErr]; the function returns its error,
    the provider shutdowns it called and the standard output. *)
Definition Shutdown (t : Telemetry) (tpErr mpErr : option error)
    (out : list LogLine) : option error * list ShutdownCall * list LogLine :=
  let out := Log (Logger_ t) Background LevelInfo
               "Shutting down OpenTelemetry" [] out in
  match tpErr with
  | Some err =>
      let out := Log (Logger_ t) Background LevelError
                   "Failed to shutdown tracer provider"
                   [ ("error", String (Error err)) ] out in
      (Some err, [TracerProviderShutdown], out)
  | None =>
      match mpErr with
      | Some err =>
          let out := Log (Logger_ t) Background LevelError
                       "Failed to shutdown meter provider"
                       [ ("error", String (Error err)) ] out in
          (Some err, [TracerProviderShutdown; MeterProviderShutdown], out)
      | None =>
          let out := Log (Logger_ t) Background LevelInfo
                       "OpenTelemetry shutdown successfully" [] out in
          (None, [TracerProviderShutdown; MeterProviderShutdown], out)
      end
  end.

End lifecycle.

(** * Notions used in the statements *)

Section LoggerNotions.
Import telemetry.

(** The fields the handler adds for the trace and for the route. *)
Definition traceFields (ctx : Context) : list Attr :=
  if IsValid (SpanFromContext ctx)
  then [ ("trace_id", String (TraceID (SpanFromContext ctx)));
         ("span_id", String (SpanID (SpanFromContext ctx))) ]
  else [].

Definition routeFields (ctx : Context) : list Attr :=
  if bool_decide (HTTPRouteFromContext ctx ≠ "")
  then [ ("http.route", String (HTTPRouteFromContext ctx)) ]
  else [].

End LoggerNotions.

Section ResponseNotions.
Import golang response.

(** The category label of a status code. *)
Definition categoryOf (status : Z) : string :=
  match status with
  | 404%Z => "not_found"
  | 400%Z => "bad_request"
  | 500%Z => "internal_server_error"
  | _ => "error"
  end.

End ResponseNotions.

Section MiddlewareNotions.
Import telemetry runtime response middleware.

(** The attribute set both [incrementIfNeeded] and [ensureDecrement] build
    from the request and the route context as it is when they run. *)
Definition attrsAt (r : Request) (c : Conn) : list Attr :=
  [ ("http.request.method", String (Method r));
    ("http.route",
     String (match rctx c with
             | Some pattern => if bool_decide (pattern ≠ "") then pattern
                               else URLPath r
             | None => URLPath r
             end));
    ("server.address", String (Host r)) ].

Definition isRoute (s : Step) : bool :=
  match s with Route _ => true | Call _ => false end.

(** No routing step follows the first write of the chain. *)
Fixpoint routeStable (next : list Step) : bool :=
  match next with
  | [] => true
  | s :: rest =>
      if writes s then forallb (λ s, negb (isRoute s)) rest
      else routeStable rest
  end.

End MiddlewareNotions.

(** ** A program logic for the stateful code

    [wp m Q w]: from [w] the computation [m] does not panic, and its result
    and final world satisfy [Q]. Telemetry steps (logging, spans, counters)
    leave [storeOf] as it is, whatever they return.

    [rel R m1 m2]: run from worlds that agree on everything but what was
    logged, traced, measured and exported, [m1] and [m2] both panic or both
    return, with results related by [R], in worlds that agree again; and
    [m2], the run without exporters, has exported nothing. *)

Section LogicNotions.
Import golang telemetry runtime.
Context {Obj : Type}.
#[local] Abbreviation M := (runtime.M Obj).
#[local] Abbreviation World := (runtime.World Obj).

Definition wp {A} (m : M A) (Q : A → World → Prop) (w : World) : Prop :=
  match m w with
  | Some (a, w') => Q a w'
  | None => False
  end.

(** The part of the world that is not telemetry. *)
Definition storeOf (w : World)
    : Sources * list Obj * gmap string ptr * nat * nat :=
  (sources w, heap w, products w, uuid_calls w, clock_calls w).

Definition tele {A} (m : M A) : Prop :=
  ∀ w, ∃ a w', m w = Some (a, w') ∧ storeOf w' = storeOf w.




End LogicNotions.

Section StoreNotions.
Import golang telemetry runtime domain.
#[local] Abbreviation Service := (service.ProductService memory.ProductRepository).

(** What a reader finds under an identifier: the object the map points to. *)
Definition find (w : World Product) (id : string) : option Product :=
  products w !! id ≫= λ p, heap w !! p.

(** Every stored pointer is allocated. *)
Definition wf (w : World Product) : Prop :=
  ∀ id p, products w !! id = Some p → is_Some (heap w !! p).

(** The product that [NewProduct] builds from a request in a world. *)
Definition productOf (req : dto.CreateProductRequest) (w : World Product)
    : Product :=
  {| ID := uuid_source (sources w) (uuid_calls w);
     Name := dto.Name req;
     Description := dto.Description req;
     Price := dto.Price req;
     CreatedAt := clock_source (sources w) (clock_calls w);
     UpdatedAt := clock_source (sources w) (S (clock_calls w)) |}.

Definition responseOf (this : Product) : dto.ProductResponse :=
  {| dto.ID := ID this; dto.RespName := Name this;
     dto.RespDescription := Description this; dto.RespPrice := Price this;
     dto.CreatedAt := CreatedAt this; dto.UpdatedAt := UpdatedAt this |}.

(** The request passes [Validate]. *)
Definition valid (req : dto.CreateProductRequest) : bool :=
  negb (bool_decide (dto.Name req = "")) && negb (PrimFloat.leb (dto.Price req) 0).

(** A world is kept when the identifiers still point to allocated objects
    and no object was changed or freed. *)
Definition kept (w w' : World Product) : Prop :=
  wf w' ∧ heap w `prefix_of` heap w'.


(** The process: wire the components, then serve the requests in turn. *)
Definition program (telem : Telemetry) (reqs : list (Context * main.Request))
    : M (list (list response.WriterCall)) :=
  let* h := main.wire telem in main.serveAll h reqs.


End StoreNotions.

(** ** A concrete process, for the examples *)

Section Examples.
Import golang telemetry runtime domain.

Definition demoConfig : config.OTLPConfig :=
  config.OTLP (config.LoadConfig ∅).

Definition demoSources : Sources :=
  {| uuid_source := λ n, match n with
                         | 0 => "550e8400-e29b-41d4-a716-446655440000"
                         | _ => "7c9e6679-7425-40de-944b-e07fc1f90ae7"
                         end;
     clock_source := λ n, (1766224800000000000 + 417 * Z.of_nat n)%Z;
     id_source := λ n, match n with
                       | 0 => "4bf92f3577b34da6a3ce929d0e0e4736"
                       | 1 => "53995c3f42cd8ad8"
                       | _ => "00f067aa0ba902b7"
                       end |}.

(** The world of a process that has just started. *)
Definition demoWorld : World Product :=
  {| sources := demoSources; heap := []; products := ∅;
     uuid_calls := 0; clock_calls := 0; id_calls := 0;
     spans := []; stdout := []; measurements := []; exported := [] |}.


(** The handler that [main.wire] builds on a telemetry. *)
Definition handlerOf (telem : Telemetry)
    : handler.ProductHandler memory.ProductRepository :=
  let tracer := {| tracerProvider := TracerProvider_ telem;
                   tracerName := "products-api" |} in
  let meter := {| meterProvider := MeterProvider_ telem;
                  meterName := "products-api" |} in
  let logger := Logger_ telem in
  handler.NewProductHandler
    (service.NewProductService
       {| memory.tracer := tracer; memory.logger := logger |}
       tracer meter logger)
    logger.

Definition demoNoOp : Telemetry := (NewNoOpTelemetry demoConfig []).1.


Definition demoService : service.ProductService memory.ProductRepository :=
  handler.service_ (handlerOf demoNoOp).

(** The request of the README: a laptop at 1299.99. *)
Definition laptop : dto.CreateProductRequest :=
  {| dto.Name := "Laptop"; dto.Description := "High-performance laptop";
     dto.Price := 0x1.44ff5c28f5c29p+10%float |}.

(** A store that holds one product, the laptop at address 0; the object
    at address 1 has the same identifier and is not stored. *)
Definition demoStored : World Product :=
  {| sources := demoSources;
     heap := [ {| ID := "550e8400-e29b-41d4-a716-446655440000";
                  Name := "Laptop"; Description := "High-performance laptop";
                  Price := 0x1.44ff5c28f5c29p+10%float;
                  CreatedAt := 1766224800000000000%Z;
                  UpdatedAt := 1766224800000000417%Z |};
               {| ID := "550e8400-e29b-41d4-a716-446655440000";
                  Name := "Phone"; Description := "";
                  Price := 0x1.8p+8%float;
                  CreatedAt := 1766224800000000834%Z;
                  UpdatedAt := 1766224800000001251%Z |} ];
     products := {[ "550e8400-e29b-41d4-a716-446655440000" := 0 ]};
     uuid_calls := 2; clock_calls := 4; id_calls := 0;
     spans := []; stdout := []; measurements := []; exported := [] |}.

End Examples.

(** ** Notions for the further properties *)

Section FurtherNotions.
Import golang telemetry runtime response middleware.

(** The attributes a handler was given by [WithAttrs], and the number of
    trace-context handlers wrapped around its JSON handler. *)
Fixpoint ownAttrs (h : Handler) : list Attr :=
  match h with
  | JSONHandler attrs => attrs
  | traceContextHandler handler => ownAttrs handler
  end.

Fixpoint wrappers (h : Handler) : nat :=
  match h with
  | JSONHandler _ => 0
  | traceContextHandler handler => S (wrappers handler)
  end.

(** The route a middleware reads for a request: the pattern of the chi
    route context when there is a non-empty one, the raw path otherwise. *)
Definition routeOf (r : Request) (pattern : option string) : string :=
  match pattern with
  | Some pattern => if bool_decide (pattern ≠ "") then pattern else URLPath r
  | None => URLPath r
  end.

(** The status code the wrapper has captured after a chain: the code of
    the last [WriteHeader], [200] when there was none. *)
Definition lastStatus (calls : list WriterCall) : Z :=
  default 200%Z
    (last (omap (λ call, match call with
                         | WriteHeader code => Some code
                         | _ => None
                         end) calls)).



(** The records of the store: what the stored pointers point to. *)
Definition stored (w : World domain.Product) : list domain.Product :=
  omap (λ p : ptr, heap w !! p) (map_to_list (products w)).*2.

(** A response of the product handlers that is no server error: the JSON
    content type, one of the four status codes, one body. *)
Definition answered (calls : list WriterCall) : Prop :=
  ∃ status payload,
    calls = JSON status payload
    ∧ status ∈ [StatusOK; StatusCreated; StatusBadRequest; StatusNotFound].

(** The identifiers still to be drawn are new to the store and differ from
    one another. *)
Definition freshIdentifiers (w : World domain.Product) : Prop :=
  (∀ i, (uuid_calls w ≤ i)%nat →
        products w !! uuid_source (sources w) i = None)
  ∧ (∀ i j, (uuid_calls w ≤ i)%nat → (uuid_calls w ≤ j)%nat →
            uuid_source (sources w) i = uuid_source (sources w) j → i = j).

(** The requests of a sequence that create a product: the create requests
    whose body decodes and passes validation. *)
Definition creates (req : main.Request) : bool :=
  match req with
  | main.PostProducts (inr req) => valid req
  | _ => false
  end.

Fixpoint creations (reqs : list (Context * main.Request)) : nat :=
  match reqs with
  | [] => 0
  | (_, req) :: rest =>
      (if creates req then 1 else 0) + creations rest
  end.

(** What a reader of the logs keeps of a line, and what a reader of the
    traces keeps of a span, when identifiers and field values are set
    aside. *)
Definition heads (out : list LogLine) : list (Level * string) :=
  (λ l, (lineLevel l, lineMessage l)) <$> out.

Definition spanLog (l : list Span) : list (string * list SpanCall) :=
  (λ s, (spanName s, spanCalls s)) <$> l.

(** A process that has just started, with an identifier source that never
    repeats: the n-th identifier is n strokes. *)
Definition tally (n : nat) : string := Nat.iter n (String.append "|") "".

Definition demoFresh : World domain.Product :=
  {| sources := {| uuid_source := tally;
                   clock_source := clock_source demoSources;
                   id_source := id_source demoSources |};
     heap := []; products := ∅;
     uuid_calls := 0; clock_calls := 0; id_calls := 0;
     spans := []; stdout := []; measurements := []; exported := [] |}.

End FurtherNotions.

(** * Properties *)

(** ** Configuration *)

Section ConfigFacts.
Import config.

Lemma getEnvBool_unset environ key d :
  Getenv environ key = "" → getEnvBool environ key d = d.
Proof.
  intros H. unfold getEnvBool. rewrite H.
  rewrite bool_decide_eq_false_2; [reflexivity | congruence].
Qed.

Lemma getEnvBool_set environ key d :
  Getenv environ key ≠ "" →
  getEnvBool environ key d
  = bool_decide (Getenv environ key ∈ ["true"; "1"; "yes"]).
Proof.
  intros H. unfold getEnvBool. rewrite bool_decide_eq_true_2 by assumption.
  set (v := Getenv environ key).
  repeat case_bool_decide; simpl; try reflexivity;
    repeat match goal with
           | H : _ ∈ _ :: _ |- _ => apply elem_of_cons in H as [H | H]
           | H : _ ∈ [] |- _ => apply elem_of_nil in H; contradiction
           | H : ¬ (_ ∈ _) |- _ => exfalso; apply H; set_solver
           end; congruence.
Qed.

(** C10. [OTEL_ENABLED] is read case-sensitively against a fixed
    accept-list: unset or empty gives the default [true]; a non-empty
    value gives [true] exactly for ["true"], ["1"] and ["yes"], so
    ["TRUE"], ["True"] and ["on"] give [false], and with [false] the
    process runs on the providers without exporters. *)
Theorem OTEL_ENABLED_accept_list :
  (∀ environ : gmap string string,
      Enabled (OTLP (LoadConfig environ))
      = match environ !! "OTEL_ENABLED" with
        | None => true
        | Some value =>
            if decide (value = "") then true
            else bool_decide (value ∈ ["true"; "1"; "yes"])
        end)
  ∧ Forall (λ value,
      Enabled (OTLP (LoadConfig {[ "OTEL_ENABLED" := value ]})) = true)
      ["true"; "1"; "yes"; ""]
  ∧ Forall (λ value,
      Enabled (OTLP (LoadConfig {[ "OTEL_ENABLED" := value ]})) = false
      ∧ ∀ lib out,
          (λ t, (telemetry.traceExporter (telemetry.TracerProvider_ t),
                 telemetry.otlpReader (telemetry.MeterProvider_ t)))
            <$> (main.telemetryOf lib
                   (LoadConfig {[ "OTEL_ENABLED" := value ]}) out).1
          = Some (None, None))
      ["TRUE"; "True"; "on"; "false"; "0"].
Proof.
  split; [| split].
  - intros environ. cbn [LoadConfig Enabled OTLP].
    destruct (environ !! "OTEL_ENABLED") as [value |] eqn:E.
    + destruct (decide (value = "")) as [-> | Hne].
      * apply getEnvBool_unset. unfold Getenv. by rewrite E.
      * assert (Getenv environ "OTEL_ENABLED" = value) as Hv
          by (unfold Getenv; by rewrite E).
        rewrite getEnvBool_set by (rewrite Hv; assumption).
        by rewrite Hv.
    + apply getEnvBool_unset. unfold Getenv. by rewrite E.
  - repeat constructor.
  - repeat constructor; intros lib out; reflexivity.
Qed.

End ConfigFacts.

(** ** The trace-correlated log handler *)

Section LoggerFacts.
Import telemetry.

Lemma Handle_record_eta handler ctx r out :
  Handle handler ctx
    {| recLevel := recLevel r; recMessage := recMessage r;
       recAttrs := recAttrs r |} out
  = Handle handler ctx r out.
Proof. by destruct r. Qed.

Lemma Handle_traceContextHandler handler ctx r out :
  Handle (traceContextHandler handler) ctx r out
  = Handle handler ctx
      (AddAttrs r (traceFields ctx ++ routeFields ctx)) out.
Proof.
  unfold traceFields, routeFields. cbn [Handle].
  destruct (IsValid (SpanFromContext ctx));
    destruct (bool_decide (HTTPRouteFromContext ctx ≠ ""));
    unfold AddAttrs; cbn [recLevel recMessage recAttrs];
    rewrite <- ?app_assoc, ?app_nil_r; try reflexivity.
  symmetry. apply Handle_record_eta.
Qed.

Lemma Handle_JSONHandler attrs ctx r out :
  Handle (JSONHandler attrs) ctx r out
  = out ++ [ {| lineLevel := recLevel r; lineMessage := recMessage r;
                lineFields := attrs ++ recAttrs r |} ].
Proof. reflexivity. Qed.

(** C9. A record handled by the trace-context handler reaches the
    wrapped handler with its level, message and own fields untouched and
    with [trace_id] and [span_id] appended when the context carries a
    valid span context, and [http.route] appended when the context
    carries a non-empty route; with neither (the background context of
    the startup logs) the record passes unchanged. Through the logger of
    [initLogger] the emitted line holds the service fields, the call
    site's fields and then the added ones. *)
Theorem traceContextHandler_Handle_enriches :
  (∀ handler ctx r out,
      Handle (traceContextHandler handler) ctx r out
      = Handle handler ctx
          {| recLevel := recLevel r; recMessage := recMessage r;
             recAttrs := recAttrs r ++ traceFields ctx ++ routeFields ctx |}
          out)
  ∧ (∀ sc route,
      traceFields {| ctxSpan := Some sc; ctxHTTPRoute := route |}
      = if IsValid sc
        then [ ("trace_id", String (TraceID sc));
               ("span_id", String (SpanID sc)) ]
        else [])
  ∧ (∀ span route,
      routeFields {| ctxSpan := span; ctxHTTPRoute := Some route |}
      = if decide (route = "") then []
        else [ ("http.route", String route) ])
  ∧ (∀ handler r out,
      Handle (traceContextHandler handler) Background r out
      = Handle handler Background r out)
  ∧ (∀ cfg ctx level msg attrs out,
      Log (initLogger cfg) ctx level msg attrs out
      = out ++ [ {| lineLevel := level; lineMessage := msg;
                    lineFields :=
                      [ ("service.name", String (config.ServiceName cfg));
                        ("environment", String (config.Environment cfg)) ]
                      ++ attrs ++ traceFields ctx ++ routeFields ctx |} ]).
Proof.
  split; [| split; [| split; [| split]]].
  - intros. apply Handle_traceContextHandler.
  - intros sc route. reflexivity.
  - intros span route. unfold routeFields. cbn.
    destruct (decide (route = "")) as [-> | Hne].
    + by rewrite bool_decide_eq_false_2 by (intros H; by apply H).
    + by rewrite bool_decide_eq_true_2.
  - intros handler r out. rewrite Handle_traceContextHandler.
    cbn. unfold AddAttrs. rewrite app_nil_r. apply Handle_record_eta.
  - intros cfg ctx level msg attrs out. unfold Log, initLogger, With.
    cbn [loggerHandler WithAttrs].
    rewrite Handle_traceContextHandler, Handle_JSONHandler.
    reflexivity.
Qed.

End LoggerFacts.

(** ** Error bodies *)

Section ResponseFacts.
Import golang response.

Lemma Error_label status :
  (if bool_decide (status = StatusNotFound) then "not_found"
   else if bool_decide (status = StatusBadRequest) then "bad_request"
   else if bool_decide (status = StatusInternalServerError)
        then "internal_server_error"
   else "error") = categoryOf status.
Proof.
  unfold StatusNotFound, StatusBadRequest, StatusInternalServerError.
  repeat case_bool_decide; subst; try reflexivity.
  unfold categoryOf.
  repeat match goal with
         | |- context [match ?x with _ => _ end] => destruct x; try reflexivity
         end; congruence.
Qed.

(** C7, as the code has it. Every error body has two parts, a category
    label fixed by the status code alone and a message that is the text
    of the error, for status 500 as for every other status. *)
Theorem Error_body_label_and_message (status : Z) (err : error) :
  response.Error status err
  = [ HeaderSet "Content-Type" "application/json";
      WriteHeader status;
      Write (JSONError {| ErrorLabel := categoryOf status;
                          Message := golang.Error err |}) ]
  ∧ categoryOf StatusInternalServerError = "internal_server_error"
  ∧ categoryOf StatusNotFound = "not_found"
  ∧ categoryOf StatusBadRequest = "bad_request".
Proof.
  split; [| by repeat split].
  unfold response.Error, JSON. by rewrite Error_label.
Qed.

(** C7, counterexample. The body of a 500 response carries the text of
    the internal error, not only the generic label. *)
Lemma Error_body_500_carries_error_text :
  let err := errorString 0 "dial tcp 10.0.0.5:5432: connection refused" in
  ∃ body,
    response.Error StatusInternalServerError err
    = [ HeaderSet "Content-Type" "application/json";
        WriteHeader 500;
        Write (JSONError body) ]
    ∧ ErrorLabel body = "internal_server_error"
    ∧ Message body = "dial tcp 10.0.0.5:5432: connection refused".
Proof. eexists. repeat split. Qed.

End ResponseFacts.

(** ** The active-requests tracker *)

Section MiddlewareFacts.
Import telemetry runtime response middleware.

Lemma incrementIfNeeded_spec w c :
  incrementIfNeeded w c
  = ({| request := request w; incrementDone := true;
        decrementDone := decrementDone w |},
     if incrementDone w then c
     else activeRequests_Add 1 (attrsAt (request w) c) c).
Proof.
  unfold incrementIfNeeded.
  destruct w as [r [] d]; cbn; reflexivity.
Qed.

Lemma ensureDecrement_spec w c :
  decrementDone w = false →
  ensureDecrement w c
  = ({| request := request w; incrementDone := true; decrementDone := true |},
     let c := if incrementDone w then c
              else activeRequests_Add 1 (attrsAt (request w) c) c in
     activeRequests_Add (-1) (attrsAt (request w) c) c).
Proof.
  intros Hd. unfold ensureDecrement. rewrite Hd.
  destruct w as [r [] d]; cbn in *; reflexivity.
Qed.

Lemma step_spec s w c :
  step s w c
  = ({| request := request w;
        incrementDone := incrementDone w || writes s;
        decrementDone := decrementDone w |},
     match s with
     | Route pattern => routed pattern c
     | Call call =>
         set_written (λ l, l ++ [call])
           (if incrementDone w || negb (writes s) then c
            else activeRequests_Add 1 (attrsAt (request w) c) c)
     end).
Proof.
  destruct s as [pattern | [k v | code | b]]; cbn;
    unfold routeAwareWriter_WriteHeader, routeAwareWriter_Write;
    rewrite ?incrementIfNeeded_spec;
    destruct w as [r [] d]; cbn; reflexivity.
Qed.

Lemma ServeHTTP_flags next : ∀ w c,
  request (ServeHTTP next w c).1 = request w
  ∧ decrementDone (ServeHTTP next w c).1 = decrementDone w
  ∧ incrementDone (ServeHTTP next w c).1
    = incrementDone w || existsb writes next.
Proof.
  induction next as [| s rest IH]; intros w c; cbn [ServeHTTP existsb].
  - by rewrite orb_false_r.
  - rewrite step_spec.
    destruct (IH {| request := request w;
                    incrementDone := incrementDone w || writes s;
                    decrementDone := decrementDone w |}
                 match s with
                 | Route pattern => routed pattern c
                 | Call call =>
                     set_written (λ l, l ++ [call])
                       (if incrementDone w || negb (writes s) then c
                        else activeRequests_Add 1 (attrsAt (request w) c) c)
                 end) as (Hr & Hd & Hi).
    cbn in Hr, Hd, Hi. rewrite Hr, Hd, Hi. by rewrite orb_assoc.
Qed.


(** After the first write the wrapper adds nothing more, and without a
    routing step the route context stays as it is. *)
Lemma ServeHTTP_after_increment next : ∀ w c,
  incrementDone w = true →
  forallb (λ s, negb (isRoute s)) next = true →
  adds (ServeHTTP next w c).2 = adds c ∧ rctx (ServeHTTP next w c).2 = rctx c.
Proof.
  induction next as [| s rest IH]; intros w c Hi Hn; cbn [ServeHTTP].
  - done.
  - cbn in Hn. apply andb_prop in Hn as [Hs Hrest].
    rewrite step_spec, Hi. cbn [orb].
    destruct s as [pattern | call]; [discriminate |].
    destruct (IH {| request := request w; incrementDone := true;
                    decrementDone := decrementDone w |}
                 (set_written (λ l, l ++ [call]) c) eq_refl Hrest) as [Ha Hc].
    rewrite Ha, Hc. done.
Qed.

(** With no routing step after the first write, the two calls made for a
    request carry one attribute set. *)
Lemma ServeHTTP_route_stable next : ∀ r c,
  routeStable next = true →
  ∃ attrs,
    let w := {| request := r; incrementDone := false; decrementDone := false |} in
    adds (ensureDecrement (ServeHTTP next w c).1 (ServeHTTP next w c).2).2
    = adds c ++ [ {| instrument := "http.server.active_requests";
                     amount := 1; labels := attrs |};
                  {| instrument := "http.server.active_requests";
                     amount := -1; labels := attrs |} ].
Proof.
  induction next as [| s rest IH]; intros r c Hs; cbn [ServeHTTP].
  - exists (attrsAt r c). cbn. by rewrite <- app_assoc.
  - cbn [routeStable] in Hs. rewrite step_spec.
    cbn [incrementDone decrementDone request orb].
    destruct (writes s) eqn:Hw.
    + destruct s as [pattern | call]; [discriminate |]. cbn [negb].
      set (w1 := {| request := r; incrementDone := true; decrementDone := false |}).
      set (c1 := set_written (λ l, l ++ [call])
                   (activeRequests_Add 1 (attrsAt r c) c)).
      destruct (ServeHTTP_after_increment rest w1 c1 eq_refl Hs) as [Ha Hc].
      destruct (ServeHTTP_flags rest w1 c1) as (Hr & Hd & Hi).
      exists (attrsAt r c).
      rewrite ensureDecrement_spec by (by rewrite Hd).
      rewrite Hi, Hr. cbn. unfold attrsAt at 1. rewrite Hc, Ha. cbn.
      by rewrite <- app_assoc.
    + destruct s as [pattern | call].
      * apply (IH r (routed pattern c) Hs).
      * cbn [negb]. destruct (IH r (set_written (λ l, l ++ [call]) c) Hs)
          as [attrs Hattrs].
        exists attrs. apply Hattrs.
Qed.


(** C2, at the failing input: a chain that writes the status line before
    the router has recorded the pattern. The [+1] is labelled with the raw
    path and the [-1] with the pattern. *)
Theorem attributes_differ_when_routed_after_first_write :
  let r := {| Method := "GET"; URLPath := "/products/42";
              Host := "localhost:8080" |} in
  let next := [ Call (WriteHeader 200); Route "/products/{id}";
                Call (Write (Bytes "{}")) ] in
  let c := {| rctx := Some ""; adds := []; written := [] |} in
  adds (ActiveRequestsMiddleware None next r c)
  = [ {| instrument := "http.server.active_requests"; amount := 1;
         labels := [ ("http.request.method", String "GET");
                     ("http.route", String "/products/42");
                     ("server.address", String "localhost:8080") ] |};
      {| instrument := "http.server.active_requests"; amount := -1;
         labels := [ ("http.request.method", String "GET");
                     ("http.route", String "/products/{id}");
                     ("server.address", String "localhost:8080") ] |} ].
Proof. reflexivity. Qed.

(** When no routing step follows the first write (in particular when the
    chain writes nothing, or the pattern never resolves), both calls carry
    the same attribute set. *)
Lemma attributes_agree_when_route_stable r next c :
  routeStable next = true →
  ∃ attrs,
    adds (ActiveRequestsMiddleware None next r c)
    = adds c ++ [ {| instrument := "http.server.active_requests";
                     amount := 1; labels := attrs |};
                  {| instrument := "http.server.active_requests";
                     amount := -1; labels := attrs |} ].
Proof.
  intros Hs. destruct (ServeHTTP_route_stable next r c Hs) as [attrs H].
  exists attrs. unfold ActiveRequestsMiddleware.
  cbn zeta in H.
  destruct (ServeHTTP next _ c) as [w1 c1]. exact H.
Qed.

End MiddlewareFacts.

(** ** Rules of the program logic *)

Section ProgramLogic.
Import golang telemetry runtime.
Context {Obj : Type}.
#[local] Abbreviation M := (runtime.M Obj).
#[local] Abbreviation World := (runtime.World Obj).
Implicit Types w : World.

Lemma wp_ret {A} (a : A) Q w : Q a w → wp (ret a) Q w.
Proof. done. Qed.

Lemma wp_bind {A B} (m : M A) (k : A → M B) Q w :
  wp m (λ a w', wp (k a) Q w') w → wp (bind m k) Q w.
Proof. unfold wp, bind. by destruct (m w) as [[a w'] |]. Qed.

Lemma wp_mono {A} (m : M A) (Q Q' : A → World → Prop) w :
  wp m Q w → (∀ a w', Q a w' → Q' a w') → wp m Q' w.
Proof. unfold wp. destruct (m w) as [[a w'] |]; [eauto | done]. Qed.

Lemma wp_run {A} (m : M A) Q w :
  wp m Q w → ∃ a w', m w = Some (a, w') ∧ Q a w'.
Proof. unfold wp. destruct (m w) as [[a w'] |]; [eauto | done]. Qed.

Lemma wp_modify f Q w : Q tt (f w) → wp (modify f) Q w.
Proof. done. Qed.

Lemma wp_gets {A} (f : World → A) Q w : Q (f w) w → wp (gets f) Q w.
Proof. done. Qed.

Lemma wp_new (o : Obj) Q w :
  Q (length (heap w)) (set_heap (λ h, h ++ [o]) w) → wp (new o) Q w.
Proof. done. Qed.

Lemma wp_load p o Q w : heap w !! p = Some o → Q o w → wp (load p) Q w.
Proof. unfold wp, load. by intros ->. Qed.

Lemma wp_uuid_New Q w :
  Q (uuid_source (sources w) (uuid_calls w)) (set_uuid_calls S w)
  → wp uuid_New Q w.
Proof. done. Qed.

Lemma wp_time_Now Q w :
  Q (clock_source (sources w) (clock_calls w)) (set_clock_calls S w)
  → wp time_Now Q w.
Proof. done. Qed.

Lemma wp_tele {A} (m : M A) Q w :
  tele m → (∀ a w', storeOf w' = storeOf w → Q a w') → wp m Q w.
Proof.
  intros Hm HQ. destruct (Hm w) as (a & w' & Hrun & Hs).
  unfold wp. rewrite Hrun. by apply HQ.
Qed.

Lemma tele_ret {A} (a : A) : tele (ret a : M A).
Proof. intros w. by exists a, w. Qed.

Lemma tele_bind {A B} (m : M A) (k : A → M B) :
  tele m → (∀ a, tele (k a)) → tele (bind m k).
Proof.
  intros Hm Hk w. destruct (Hm w) as (a & w1 & Hrun & Hs).
  destruct (Hk a w1) as (b & w2 & Hrun2 & Hs2).
  exists b, w2. unfold bind. rewrite Hrun. split; [done | congruence].
Qed.

Lemma tele_modify f :
  (∀ w, storeOf (f w) = storeOf w) → tele (modify f).
Proof. intros Hf w. exists tt, (f w). by split. Qed.

Lemma tele_newID : tele (newID : M string).
Proof. intros w. by eexists _, _. Qed.

Lemma tele_LogContext l ctx level msg attrs :
  tele (LogContext l ctx level msg attrs : M unit).
Proof. by apply tele_modify. Qed.

Lemma tele_Start t ctx name : tele (Start t ctx name : M _).
Proof.
  unfold Start. apply tele_bind.
  - destruct (IsValid _); [apply tele_ret | apply tele_newID].
  - intros tid. apply tele_bind; [apply tele_newID |].
    intros sid w. by eexists _, _.
Qed.

Lemma tele_span_call span c : tele (span_call span c : M unit).
Proof. by apply tele_modify. Qed.

Lemma tele_span_End span : tele (span_End span : M unit).
Proof.
  unfold span_End. apply tele_bind; [apply tele_span_call |].
  intros _. destruct (traceExporter _); [by apply tele_modify | apply tele_ret].
Qed.

Lemma tele_Add c ctx n attrs : tele (Add c ctx n attrs : M unit).
Proof.
  unfold Add. apply tele_bind; [by apply tele_modify |].
  intros _. destruct (otlpReader _); [by apply tele_modify | apply tele_ret].
Qed.

End ProgramLogic.

(** One step of a [wp] proof: split a bind, run a telemetry step keeping
    only that the store is as before, or run a store primitive. *)
Ltac wp_tele_step :=
  apply wp_tele;
  [ first [ apply tele_Start | apply tele_span_End | apply tele_Add
          | apply tele_span_call | apply tele_LogContext ]
  | intros ? ? ? ].

Ltac wp_step :=
  lazymatch goal with
  | |- wp (runtime.bind _ _) _ _ => apply wp_bind
  | |- wp (runtime.ret _) _ _ => apply wp_ret
  | |- wp (runtime.Start _ _ _) _ _ => wp_tele_step
  | |- wp (runtime.span_End _) _ _ => wp_tele_step
  | |- wp (runtime.Add _ _ _ _) _ _ => wp_tele_step
  | |- wp (runtime.SetAttributes _ _) _ _ => wp_tele_step
  | |- wp (runtime.RecordError _ _) _ _ => wp_tele_step
  | |- wp (runtime.SetStatus _ _ _) _ _ => wp_tele_step
  | |- wp (runtime.InfoContext _ _ _ _) _ _ => wp_tele_step
  | |- wp (runtime.DebugContext _ _ _ _) _ _ => wp_tele_step
  | |- wp (runtime.WarnContext _ _ _ _) _ _ => wp_tele_step
  | |- wp (runtime.ErrorContext _ _ _ _) _ _ => wp_tele_step
  | |- wp (runtime.modify _) _ _ => apply wp_modify
  | |- wp (runtime.gets _) _ _ => apply wp_gets
  | |- wp (runtime.new _) _ _ => apply wp_new
  | |- wp runtime.uuid_New _ _ => apply wp_uuid_New
  | |- wp runtime.time_Now _ _ => apply wp_time_Now
  | |- wp (match ?x with (_, _) => _ end) _ _ => destruct x
  | |- wp (let '(_, _) := ?x in _) _ _ => destruct x
  end.

(** Componentwise form of the store equations collected on the way. *)
Ltac store_eqs :=
  repeat match goal with
         | H : storeOf _ = storeOf _ |- _ =>
             unfold storeOf in H; cbn in H; injection H as ? ? ? ? ?
         end.

(** Rewrite the fields of later worlds down to the initial one. *)
Ltac store_rewrite :=
  store_eqs;
  repeat match goal with
         | H : runtime.heap ?w = _ |- context [runtime.heap ?w] => rewrite H
         | H : runtime.products ?w = _ |- context [runtime.products ?w] =>
             rewrite H
         | H : runtime.uuid_calls ?w = _ |- context [runtime.uuid_calls ?w] =>
             rewrite H
         | H : runtime.clock_calls ?w = _ |- context [runtime.clock_calls ?w] =>
             rewrite H
         | H : runtime.sources ?w = _ |- context [runtime.sources ?w] =>
             rewrite H
         end.

Section StoreFacts.
Import golang telemetry runtime domain.

Lemma lookup_new {A} (l : list A) (x : A) : (l ++ [x]) !! length l = Some x.
Proof. by apply list_lookup_middle. Qed.

Lemma wp_NewProduct name description price Q (w : World Product) :
  (∀ w',
      sources w' = sources w →
      products w' = products w →
      uuid_calls w' = S (uuid_calls w) →
      clock_calls w' = S (S (clock_calls w)) →
      heap w' = heap w ++
        [ {| ID := uuid_source (sources w) (uuid_calls w);
             Name := name; Description := description; Price := price;
             CreatedAt := clock_source (sources w) (clock_calls w);
             UpdatedAt := clock_source (sources w) (S (clock_calls w)) |} ] →
      Q (if bool_decide (name = "") then inl ErrInvalidProductName
         else if PrimFloat.leb price 0 then inl ErrInvalidProductPrice
         else inr (length (heap w))) w') →
  wp (NewProduct name description price) Q w.
Proof.
  intros HQ. unfold NewProduct, Validate.
  repeat wp_step.
  eapply wp_load; [cbn; apply lookup_new |].
  cbn [Name Price].
  specialize (HQ (set_heap
    (λ h, h ++ [ {| ID := uuid_source (sources w) (uuid_calls w);
                    Name := name; Description := description; Price := price;
                    CreatedAt := clock_source (sources w) (clock_calls w);
                    UpdatedAt := clock_source (sources w) (S (clock_calls w)) |} ])
    (set_clock_calls S (set_clock_calls S (set_uuid_calls S w))))
    eq_refl eq_refl eq_refl eq_refl eq_refl).
  destruct (bool_decide (name = "")); [by repeat wp_step |].
  destruct (PrimFloat.leb price 0); by repeat wp_step.
Qed.

End StoreFacts.

Section UseCaseFacts.
Import golang telemetry runtime domain.
Context {R : Type} `{!ProductRepository R}.

(** C4. A create request with an empty name or a non-positive price is
    answered with one of the two validation errors, and the store is as it
    was: the map is unchanged, the heap has only grown, and every record
    that could be read before reads the same. *)
Theorem CreateProduct_invalid_leaves_store
    (s : service.ProductService R) (ctx : Context)
    (req : dto.CreateProductRequest) (w : World Product) :
  dto.Name req = "" ∨ PrimFloat.leb (dto.Price req) 0 = true →
  ∃ err w',
    service.CreateProduct s ctx req w = Some (inl err, w')
    ∧ (err = ErrInvalidProductName ∨ err = ErrInvalidProductPrice)
    ∧ products w' = products w
    ∧ heap w `prefix_of` heap w'
    ∧ ∀ id this, find w id = Some this → find w' id = Some this.
Proof.
  intros Hbad.
  cut (wp (service.CreateProduct s ctx req)
          (λ a w', ∃ err, a = inl err
             ∧ (err = ErrInvalidProductName ∨ err = ErrInvalidProductPrice)
             ∧ products w' = products w
             ∧ heap w `prefix_of` heap w') w).
  { intros Hwp. apply wp_run in Hwp as (a & w' & Hrun & err & -> & Herr & Hp & Hh).
    exists err, w'. repeat split; try done.
    intros id this. unfold find. rewrite Hp.
    destruct (products w !! id) as [p |]; [cbn | done].
    intros Hl. destruct Hh as [k ->]. by apply lookup_app_l_Some. }
  unfold service.CreateProduct.
  repeat wp_step. apply wp_NewProduct. intros w1 Hsrc Hprod Hu Hc Hheap.
  destruct (bool_decide (dto.Name req = "")) eqn:Hn;
    [| destruct (PrimFloat.leb (dto.Price req) 0) eqn:Hp].
  - repeat wp_step. exists ErrInvalidProductName.
    repeat split; [by left | by store_rewrite | store_rewrite; by eexists].
  - repeat wp_step. exists ErrInvalidProductPrice.
    repeat split; [by right | by store_rewrite | store_rewrite; by eexists].
  - exfalso. apply bool_decide_eq_false in Hn.
    destruct Hbad as [? | ?]; [done | congruence].
Qed.

End UseCaseFacts.

(** ** The in-memory repository *)

Section RepositoryFacts.
Import golang telemetry runtime domain.

Lemma wp_ToProductResponse p this Q (w : World Product) :
  heap w !! p = Some this →
  Q {| dto.ID := ID this; dto.RespName := Name this;
       dto.RespDescription := Description this; dto.RespPrice := Price this;
       dto.CreatedAt := CreatedAt this; dto.UpdatedAt := UpdatedAt this |} w →
  wp (dto.ToProductResponse p) Q w.
Proof.
  intros Hp HQ. unfold dto.ToProductResponse.
  wp_step. eapply wp_load; [exact Hp |]. by wp_step.
Qed.

Lemma wp_ToProductResponseList ps Q (w : World Product) :
  Forall (λ p, is_Some (heap w !! p)) ps →
  (∀ responses, length responses = length ps → Q responses w) →
  wp (dto.ToProductResponseList ps) Q w.
Proof.
  revert Q. induction ps as [| p ps IH]; intros Q Hall HQ;
    cbn [dto.ToProductResponseList].
  - wp_step. by apply HQ.
  - apply Forall_cons in Hall as [[this Hp] Hall].
    wp_step. eapply wp_ToProductResponse; [exact Hp |].
    wp_step. apply IH; [exact Hall |]. intros responses Hlen.
    wp_step. apply HQ. cbn. by rewrite Hlen.
Qed.

Lemma wp_memory_Create r ctx product this Q (w : World Product) :
  heap w !! product = Some this →
  (∀ w', storeOf w' = storeOf (set_products (<[ ID this := product ]>) w) →
         Q None w') →
  wp (memory.Create r ctx product) Q w.
Proof.
  intros Hp HQ. unfold memory.Create.
  repeat wp_step.
  eapply wp_load; [store_rewrite; exact Hp |].
  repeat wp_step. apply HQ.
  unfold storeOf. cbn. store_rewrite. reflexivity.
Qed.

Lemma wp_memory_FindByID r ctx id Q (w : World Product) :
  wf w →
  (∀ w', storeOf w' = storeOf w →
         Q (match products w !! id with
            | Some product => inr product
            | None => inl ErrProductNotFound
            end) w') →
  wp (memory.FindByID r ctx id) Q w.
Proof.
  intros Hwf HQ. unfold memory.FindByID.
  repeat wp_step.
  assert (products w'0 = products w) as Hpw by (by store_rewrite).
  rewrite Hpw.
  destruct (products w !! id) as [product |] eqn:Hfound.
  - destruct (Hwf id product Hfound) as [this Hthis].
    wp_step. eapply wp_load; [store_rewrite; exact Hthis |].
    repeat wp_step. apply HQ. unfold storeOf. by store_rewrite.
  - repeat wp_step. apply HQ. unfold storeOf. by store_rewrite.
Qed.

Lemma wp_memory_FindAll r ctx Q (w : World Product) :
  (∀ w', storeOf w' = storeOf w →
         Q (inr (map_to_list (products w)).*2) w') →
  wp (memory.FindAll r ctx) Q w.
Proof.
  intros HQ. unfold memory.FindAll.
  repeat wp_step.
  assert (products w' = products w) as Hpw by (by store_rewrite).
  rewrite Hpw. apply HQ. unfold storeOf. by store_rewrite.
Qed.

(** The pointers of a snapshot are the pointers of the map. *)
Lemma elem_of_snapshot (m : gmap string ptr) (p : ptr) :
  p ∈ (map_to_list m).*2 ↔ ∃ id, m !! id = Some p.
Proof.
  rewrite list_elem_of_fmap. split.
  - intros [[id q] [-> Hin]]. exists id. by apply elem_of_map_to_list.
  - intros [id Hid]. exists (id, p). split; [done |].
    by apply elem_of_map_to_list.
Qed.

Lemma wf_snapshot (w : World Product) :
  wf w → Forall (λ p, is_Some (heap w !! p)) (map_to_list (products w)).*2.
Proof.
  intros Hwf. apply Forall_forall. intros p Hp.
  apply elem_of_snapshot in Hp as [id Hid]. by apply (Hwf id).
Qed.

(** C3, as the code has it. [Create] never fails: it returns the nil error
    and binds the identifier of the record to the given pointer, whether or
    not the identifier was bound before; the other identifiers and the heap
    are untouched. *)
Theorem Create_always_stores
    (r : memory.ProductRepository) (ctx : Context) (product : ptr)
    (this : Product) (w : World Product) :
  heap w !! product = Some this →
  ∃ w',
    memory.Create r ctx product w = Some (None, w')
    ∧ products w' = <[ ID this := product ]> (products w)
    ∧ products w' !! ID this = Some product
    ∧ (∀ id, id ≠ ID this → products w' !! id = products w !! id)
    ∧ heap w' = heap w.
Proof.
  intros Hp.
  cut (wp (memory.Create r ctx product)
          (λ a w', a = None
             ∧ products w' = <[ ID this := product ]> (products w)
             ∧ heap w' = heap w) w).
  { intros Hwp. apply wp_run in Hwp as (a & w' & Hrun & -> & Hprod & Hheap).
    exists w'. repeat split; try done.
    - rewrite Hprod. apply lookup_insert_eq.
    - intros id Hid. rewrite Hprod. by apply lookup_insert_ne. }
  eapply wp_memory_Create; [exact Hp |].
  intros w' Hs. unfold storeOf in Hs. cbn in Hs.
  injection Hs as ? ? ? ? ?. done.
Qed.

End RepositoryFacts.

(** ** The use cases over the in-memory repository *)

Section ServiceFacts.
Import golang telemetry runtime domain.

#[local] Abbreviation Service := (service.ProductService memory.ProductRepository).
#[local] Abbreviation Handler := (handler.ProductHandler memory.ProductRepository).

Lemma wp_service_CreateProduct (s : Service) ctx req Q (w : World Product) :
  (∀ w',
      sources w' = sources w →
      uuid_calls w' = S (uuid_calls w) →
      clock_calls w' = S (S (clock_calls w)) →
      heap w' = heap w ++ [productOf req w] →
      products w' = (if valid req
                     then <[ ID (productOf req w) := length (heap w) ]> (products w)
                     else products w) →
      Q (if bool_decide (dto.Name req = "") then inl ErrInvalidProductName
         else if PrimFloat.leb (dto.Price req) 0 then inl ErrInvalidProductPrice
         else inr (responseOf (productOf req w))) w') →
  wp (service.CreateProduct s ctx req) Q w.
Proof.
  intros HQ. unfold service.CreateProduct.
  repeat wp_step. apply wp_NewProduct. intros w1 Hsrc Hprod Hu Hc Hheap.
  assert (heap w1 = heap w ++ [productOf req w]) as Hheap'.
  { rewrite Hheap. unfold productOf. by store_rewrite. }
  assert (length (heap w'1) = length (heap w)) as Hlen by (by store_rewrite).
  rewrite Hlen. clear Hheap.
  unfold valid in HQ.
  destruct (bool_decide (dto.Name req = "")) eqn:Hn;
    [| destruct (PrimFloat.leb (dto.Price req) 0) eqn:Hp]; cbn in HQ.
  - repeat wp_step. apply HQ; by store_rewrite.
  - repeat wp_step. apply HQ; by store_rewrite.
  - assert (∀ w2, heap w2 = heap w1 →
              heap w2 !! length (heap w) = Some (productOf req w)) as Hnew.
    { intros w2 ->. rewrite Hheap'. apply lookup_new. }
    wp_step. eapply wp_load; [apply Hnew; reflexivity |].
    repeat wp_step.
    eapply wp_memory_Create; [apply Hnew; by store_rewrite |].
    intros w2 Hw2. unfold storeOf in Hw2. cbn in Hw2.
    injection Hw2 as Hs2 Hh2 Hp2 Hu2 Hc2.
    repeat wp_step.
    eapply wp_load; [apply Hnew; by store_rewrite |].
    repeat wp_step.
    eapply wp_ToProductResponse; [apply Hnew; by store_rewrite |].
    repeat wp_step. apply HQ; store_rewrite; try done.
Qed.

Lemma wf_grow (w w' : World Product) k :
  wf w → heap w' = heap w ++ k → products w' = products w → wf w'.
Proof.
  intros Hwf Hh Hp id p. rewrite Hp, Hh. intros Hid.
  destruct (Hwf id p Hid) as [this Hthis]. exists this.
  by apply lookup_app_l_Some.
Qed.

Lemma wf_insert_new (w w' : World Product) this id :
  wf w → heap w' = heap w ++ [this] →
  products w' = <[ id := length (heap w) ]> (products w) → wf w'.
Proof.
  intros Hwf Hh Hp id' p. rewrite Hp, Hh.
  destruct (decide (id = id')) as [<- | Hne].
  - rewrite lookup_insert_eq. intros [= <-]. exists this. apply lookup_new.
  - rewrite lookup_insert_ne by done. intros Hid.
    destruct (Hwf id' p Hid) as [that Hthat]. exists that.
    by apply lookup_app_l_Some.
Qed.

Lemma kept_same (w w' : World Product) :
  wf w → storeOf w' = storeOf w → kept w w'.
Proof.
  intros Hwf Hs. unfold storeOf in Hs. injection Hs as ? Hh Hp ? ?. split.
  - apply (wf_grow w w' []); [done | by rewrite app_nil_r | done].
  - by rewrite Hh.
Qed.

Lemma kept_trans (w1 w2 w3 : World Product) :
  kept w1 w2 → kept w2 w3 → kept w1 w3.
Proof. intros [_ H12] [Hwf H23]. split; [done | by etrans]. Qed.

Lemma service_CreateProduct_kept (s : Service) ctx req (w : World Product) :
  wf w → wp (service.CreateProduct s ctx req) (λ _ w', kept w w') w.
Proof.
  intros Hwf. apply wp_service_CreateProduct.
  intros w' Hsrc Hu Hc Hh Hp. split; [| by eexists].
  destruct (valid req).
  - by eapply wf_insert_new.
  - by eapply wf_grow.
Qed.

Lemma service_GetProductByID_kept (s : Service) ctx id (w : World Product) :
  wf w → wp (service.GetProductByID s ctx id) (λ _ w', kept w w') w.
Proof.
  intros Hwf. unfold service.GetProductByID.
  repeat wp_step.
  assert (wf w'1) as Hwf1.
  { apply (wf_grow w w'1 []); [done | rewrite app_nil_r | ]; by store_rewrite. }
  eapply wp_memory_FindByID; [exact Hwf1 |]. intros w2 Hw2.
  destruct (products w'1 !! id) as [product |] eqn:Hfound.
  - assert (products w'1 = products w) as Hpw by (by store_rewrite).
    rewrite Hpw in Hfound.
    destruct (Hwf id product Hfound) as [this Hthis].
    repeat wp_step.
    eapply wp_ToProductResponse; [store_rewrite; exact Hthis |].
    repeat wp_step. apply kept_same; [done |].
    unfold storeOf. by store_rewrite.
  - repeat wp_step. apply kept_same; [done |].
    unfold storeOf. by store_rewrite.
Qed.

Lemma service_ListProducts_kept (s : Service) ctx (w : World Product) :
  wf w → wp (service.ListProducts s ctx) (λ _ w', kept w w') w.
Proof.
  intros Hwf. unfold service.ListProducts.
  repeat wp_step.
  eapply wp_memory_FindAll. intros w2 Hw2.
  repeat wp_step.
  apply wp_ToProductResponseList.
  - store_rewrite. by apply wf_snapshot.
  - intros responses _. repeat wp_step. apply kept_same; [done |].
    unfold storeOf. by store_rewrite.
Qed.

Lemma serve_kept (h : Handler) ctx req (w : World Product) :
  wf w → wp (main.serve h ctx req) (λ _ w', kept w w') w.
Proof.
  intros Hwf. destruct req as [[err | req] | | id]; cbn [main.serve].
  - unfold handler.CreateProduct. repeat wp_step. by apply kept_same.
  - unfold handler.CreateProduct. wp_step.
    eapply wp_mono; [by apply service_CreateProduct_kept |].
    intros [err | product] w' Hk; [case_bool_decide |]; by wp_step.
  - unfold handler.ListProducts. wp_step.
    eapply wp_mono; [by apply service_ListProducts_kept |].
    intros [err | products] w' Hk; by wp_step.
  - unfold handler.GetProduct. wp_step.
    eapply wp_mono; [by apply service_GetProductByID_kept |].
    intros [err | product] w' Hk; [case_bool_decide |]; by wp_step.
Qed.

Lemma serveAll_kept (h : Handler) reqs : ∀ w : World Product,
  wf w → wp (main.serveAll h reqs) (λ _ w', kept w w') w.
Proof.
  induction reqs as [| [ctx req] reqs IH]; intros w Hwf; cbn [main.serveAll].
  - wp_step. split; [done | reflexivity].
  - wp_step. eapply wp_mono; [by apply serve_kept |].
    intros resp w1 Hk1. wp_step.
    eapply wp_mono; [apply IH, Hk1 |].
    intros resps w2 Hk2. wp_step. exact (kept_trans _ _ _ Hk1 Hk2).
Qed.

End ServiceFacts.

Section ExampleFacts.
Import golang telemetry runtime domain.

Lemma demoStored_wf : wf demoStored.
Proof.
  intros id p H. cbn in H.
  apply lookup_singleton_Some in H as [_ <-]. by eexists.
Defined.

End ExampleFacts.

Section StoreClaims.
Import golang telemetry runtime domain.

#[local] Abbreviation Handler := (handler.ProductHandler memory.ProductRepository).

Lemma CreateProduct_invalid_leaves_store_witness :
  ∃ err w',
    service.CreateProduct demoService Background
      {| dto.Name := "Laptop"; dto.Description := ""; dto.Price := (-1)%float |}
      demoWorld = Some (inl err, w')
    ∧ products w' = products demoWorld.
Proof.
  destruct (CreateProduct_invalid_leaves_store demoService Background
              {| dto.Name := "Laptop"; dto.Description := "";
                 dto.Price := (-1)%float |} demoWorld)
    as (err & w' & Hrun & _ & Hp & _).
  - right. reflexivity.
  - exists err, w'. split; [exact Hrun | exact Hp].
Defined.

Lemma Create_always_stores_witness :
  ∃ w', memory.Create (service.repo demoService) Background 0 demoStored
        = Some (None, w').
Proof.
  destruct (Create_always_stores (service.repo demoService) Background 0
              {| ID := "550e8400-e29b-41d4-a716-446655440000";
                 Name := "Laptop"; Description := "High-performance laptop";
                 Price := 0x1.44ff5c28f5c29p+10%float;
                 CreatedAt := 1766224800000000000%Z;
                 UpdatedAt := 1766224800000000417%Z |} demoStored)
    as (w' & Hrun & _).
  - reflexivity.
  - exists w'. exact Hrun.
Defined.

(** C3, counterexample. The identifier of the second object is already
    bound, to the first one; [Create] returns the nil error and rebinds it,
    so a reader now finds the phone where the laptop was. *)
Lemma Create_overwrites_existing_identifier :
  ∃ w',
    memory.Create (service.repo demoService) Background 1 demoStored
    = Some (None, w')
    ∧ (Name <$> find demoStored "550e8400-e29b-41d4-a716-446655440000")
      = Some "Laptop"
    ∧ (Name <$> find w' "550e8400-e29b-41d4-a716-446655440000")
      = Some "Phone".
Proof.
  assert (wp (memory.Create (service.repo demoService) Background 1)
             (λ a w', a = None
                ∧ (Name <$> find w' "550e8400-e29b-41d4-a716-446655440000")
                  = Some "Phone") demoStored) as Hwp.
  { eapply wp_memory_Create; [reflexivity |].
    intros w' Hs. unfold storeOf in Hs. cbn in Hs.
    injection Hs as _ Hh Hp _ _. split; [done |].
    unfold find. rewrite Hp, Hh. by rewrite lookup_insert_eq. }
  apply wp_run in Hwp as (a & w' & Hrun & -> & Hfind).
  exists w'. split; [exact Hrun | split; [reflexivity | exact Hfind]].
Qed.

(** C5. [FindAll] returns one pointer for each identifier of the map and
    nothing else, and leaves the store as it is. The slice is a value of
    its own: whatever requests are served afterwards, creates included,
    every object it points to reads as it did when the slice was taken. *)
Theorem FindAll_snapshot
    (r : memory.ProductRepository) (ctx : Context) (w : World Product) :
  wf w →
  ∃ snapshot w',
    memory.FindAll r ctx w = Some (inr snapshot, w')
    ∧ products w' = products w
    ∧ heap w' = heap w
    ∧ (∀ p, p ∈ snapshot ↔ ∃ id, products w !! id = Some p)
    ∧ length snapshot = size (products w)
    ∧ Forall (λ p, is_Some (heap w !! p)) snapshot
    ∧ ∀ (h : Handler) reqs,
        ∃ resps w'',
          main.serveAll h reqs w' = Some (resps, w'')
          ∧ Forall (λ p, heap w'' !! p = heap w !! p) snapshot.
Proof.
  intros Hwf.
  assert (wp (memory.FindAll r ctx)
             (λ a w', a = inr (map_to_list (products w)).*2
                ∧ storeOf w' = storeOf w) w) as Hwp.
  { apply wp_memory_FindAll. by intros w' Hs. }
  apply wp_run in Hwp as (a & w' & Hrun & -> & Hs).
  pose proof (kept_same w w' Hwf Hs) as [Hwf' _].
  unfold storeOf in Hs. injection Hs as _ Hh Hp _ _.
  exists (map_to_list (products w)).*2, w'.
  repeat split; try done.
  - by apply elem_of_snapshot.
  - by apply elem_of_snapshot.
  - by rewrite length_fmap, length_map_to_list.
  - by apply wf_snapshot.
  - intros h reqs.
    destruct (wp_run _ _ _ (serveAll_kept h reqs w' Hwf'))
      as (resps & w'' & Hserve & _ & [k Hk]).
    exists resps, w''. split; [exact Hserve |].
    eapply Forall_impl; [by apply wf_snapshot |].
    intros p [this Hthis]. cbn. rewrite Hk, Hh.
    transitivity (Some this); [by apply lookup_app_l_Some | by symmetry].
Qed.

Lemma FindAll_snapshot_witness :
  ∃ snapshot w',
    memory.FindAll (service.repo demoService) Background demoStored
    = Some (inr snapshot, w')
    ∧ length snapshot = 1.
Proof.
  destruct (FindAll_snapshot (service.repo demoService) Background demoStored
              demoStored_wf)
    as (snapshot & w' & Hrun & _ & _ & _ & Hlen & _).
  exists snapshot, w'. split; [exact Hrun | exact Hlen].
Defined.

(** On a request that passes validation the use case answers with the
    generated identifier, the name, description and price of the request,
    the first reading of the clock as created-at and the second reading
    as updated-at. *)
Lemma CreateProduct_valid_response
    (s : service.ProductService memory.ProductRepository) (ctx : Context)
    (req : dto.CreateProductRequest) (w : World Product) :
  dto.Name req ≠ "" → PrimFloat.leb (dto.Price req) 0 = false →
  ∃ w',
    service.CreateProduct s ctx req w
    = Some (inr {| dto.ID := uuid_source (sources w) (uuid_calls w);
                   dto.RespName := dto.Name req;
                   dto.RespDescription := dto.Description req;
                   dto.RespPrice := dto.Price req;
                   dto.CreatedAt := clock_source (sources w) (clock_calls w);
                   dto.UpdatedAt :=
                     clock_source (sources w) (S (clock_calls w)) |}, w')
    ∧ find w' (uuid_source (sources w) (uuid_calls w)) = Some (productOf req w).
Proof.
  intros Hn Hp.
  assert (wp (service.CreateProduct s ctx req)
             (λ a w', a = inr (responseOf (productOf req w))
                ∧ find w' (ID (productOf req w)) = Some (productOf req w)) w)
    as Hwp.
  { apply wp_service_CreateProduct. intros w' _ _ _ Hh Hprod.
    unfold valid in Hprod.
    rewrite bool_decide_eq_false_2, Hp in * by done. cbn in Hprod.
    split; [done |]. unfold find. rewrite Hprod, lookup_insert_eq. cbn.
    rewrite Hh. apply lookup_new. }
  apply wp_run in Hwp as (a & w' & Hrun & -> & Hfind).
  exists w'. split; [exact Hrun | exact Hfind].
Qed.

(** C6, at the failing input: the request of the README, on a clock whose
    two consecutive readings differ. The response carries the generated
    identifier and echoes name and price, and its created-at is not its
    updated-at. *)
Theorem CreateProduct_created_at_differs_from_updated_at :
  ∃ response w',
    service.CreateProduct demoService Background laptop demoWorld
    = Some (inr response, w')
    ∧ dto.ID response = "550e8400-e29b-41d4-a716-446655440000"
    ∧ dto.RespName response = "Laptop"
    ∧ dto.RespPrice response = dto.Price laptop
    ∧ dto.CreatedAt response = 1766224800000000000%Z
    ∧ dto.UpdatedAt response = 1766224800000000417%Z
    ∧ dto.CreatedAt response ≠ dto.UpdatedAt response.
Proof.
  destruct (CreateProduct_valid_response demoService Background laptop
              demoWorld) as (w' & Hrun & _); [done | reflexivity |].
  eexists _, w'. split; [exact Hrun |]. by repeat split.
Qed.

End StoreClaims.

(** ** Two telemetry configurations side by side *)

Section Relational.
Import golang telemetry runtime.
Context {Obj : Type}.
#[local] Abbreviation M := (runtime.M Obj).
#[local] Abbreviation World := (runtime.World Obj).
Implicit Types w : World.
















End Relational.





Section TelemetryModes.
Import golang telemetry runtime domain.

#[local] Abbreviation Service := (service.ProductService memory.ProductRepository).
#[local] Abbreviation Handler := (handler.ProductHandler memory.ProductRepository).
















End TelemetryModes.

Section TelemetryModesExample.
Import golang telemetry runtime domain.


End TelemetryModesExample.

(** * Further properties *)

(** ** The log handlers *)

Section HandlerFacts.
Import golang telemetry.

Lemma WithAttrs_ownAttrs h attrs :
  ownAttrs (WithAttrs h attrs) = ownAttrs h ++ attrs
  ∧ wrappers (WithAttrs h attrs) = wrappers h.
Proof.
  induction h as [own | h [IHo IHw]]; cbn; [done |]. by rewrite IHo, IHw.
Qed.

Lemma Handle_line h : ∀ ctx r out,
  Handle h ctx r out
  = out ++ [ {| lineLevel := recLevel r; lineMessage := recMessage r;
                lineFields :=
                  ownAttrs h ++ recAttrs r
                  ++ mjoin (replicate (wrappers h)
                                      (traceFields ctx ++ routeFields ctx)) |} ].
Proof.
  induction h as [own | h IH]; intros ctx r out.
  - cbn. by rewrite app_nil_r.
  - rewrite Handle_traceContextHandler, IH. cbn.
    by rewrite <- !app_assoc.
Qed.

Lemma enrichment_trace_ids ctx n :
  length (filter (λ a : Attr, a.1 = "trace_id")
            (mjoin (replicate n (traceFields ctx ++ routeFields ctx))))
  = if IsValid (SpanFromContext ctx) then n else 0.
Proof.
  induction n as [| n IH].
  - by destruct (IsValid _).
  - change (replicate (S n) ?x) with (x :: replicate n x).
    change (mjoin (?x :: ?l)) with (x ++ mjoin l).
    rewrite filter_app, length_app, IH.
    unfold traceFields, routeFields.
    destruct (IsValid (SpanFromContext ctx)),
      (bool_decide (HTTPRouteFromContext ctx ≠ "")); reflexivity.
Qed.

(** X1. Whatever the nesting of trace-context handlers around the JSON
    handler, a record gives exactly one line, with the level and message of
    the record, the attributes of the handler, then those of the record,
    then the trace and route fields once for each trace-context handler
    in the nest. *)
Theorem Handle_one_line_per_record (h : Handler) (ctx : Context)
    (r : Record_) (out : list LogLine) :
  ∃ line,
    Handle h ctx r out = out ++ [line]
    ∧ lineLevel line = recLevel r
    ∧ lineMessage line = recMessage r
    ∧ lineFields line
      = ownAttrs h ++ recAttrs r
        ++ mjoin (replicate (wrappers h) (traceFields ctx ++ routeFields ctx))
    ∧ length (filter (λ a, a.1 = "trace_id") (lineFields line))
      = length (filter (λ a, a.1 = "trace_id") (ownAttrs h ++ recAttrs r))
        + (if IsValid (SpanFromContext ctx) then wrappers h else 0).
Proof.
  eexists. split; [apply Handle_line |]. cbn.
  split; [done |]. split; [done |]. split; [done |].
  rewrite !filter_app, !length_app, <- Nat.add_assoc. do 2 f_equal.
  apply enrichment_trace_ids.
Qed.

(** X2. [With] goes through the trace-context handler: logging with the
    logger returned by [With] is logging with the attributes put in front
    of those of the call site, and the trace and route fields still come
    last. *)
Theorem With_prepends_attributes (l : Logger) (given : list Attr)
    (ctx : Context) (level : Level) (msg : string) (attrs : list Attr)
    (out : list LogLine) :
  Log (With l given) ctx level msg attrs out
  = Log l ctx level msg (given ++ attrs) out.
Proof.
  unfold Log, With. cbn [loggerHandler]. rewrite !Handle_line.
  destruct (WithAttrs_ownAttrs (loggerHandler l) given) as [-> ->].
  cbn. by rewrite <- !app_assoc.
Qed.

End HandlerFacts.

(** ** Configuration *)

Section ConfigMoreFacts.
Import config.

Lemma getEnv_lookup environ key d :
  getEnv environ key d
  = match environ !! key with
    | Some value => if decide (value = "") then d else value
    | None => d
    end.
Proof.
  unfold getEnv, Getenv. destruct (environ !! key) as [value |]; cbn.
  - destruct (decide (value = "")) as [-> | Hne].
    + by rewrite bool_decide_eq_false_2 by (intros H; by apply H).
    + by rewrite bool_decide_eq_true_2.
  - by rewrite bool_decide_eq_false_2 by (intros H; by apply H).
Qed.

Lemma getEnv_nonempty environ key d : d ≠ "" → getEnv environ key d ≠ "".
Proof.
  intros Hd. rewrite getEnv_lookup.
  destruct (environ !! key) as [value |]; [| done].
  by destruct (decide (value = "")).
Qed.

Lemma Getenv_empty_value environ key key' :
  Getenv (<[ key := "" ]> environ) key' = Getenv (delete key environ) key'.
Proof.
  unfold Getenv. destruct (decide (key = key')) as [<- | Hne].
  - by rewrite lookup_insert_eq, lookup_delete_eq.
  - by rewrite lookup_insert_ne, lookup_delete_ne.
Qed.

(** X3. Whatever the environment, no string setting of the loaded
    configuration is empty: host, port, endpoint, service name and
    environment tag each hold the non-empty value of their variable or
    their default. *)
Theorem LoadConfig_settings_never_empty (environ : gmap string string) :
  Host (Server (LoadConfig environ)) ≠ ""
  ∧ Port (Server (LoadConfig environ)) ≠ ""
  ∧ Endpoint (OTLP (LoadConfig environ)) ≠ ""
  ∧ ServiceName (OTLP (LoadConfig environ)) ≠ ""
  ∧ Environment (OTLP (LoadConfig environ)) ≠ "".
Proof.
  cbn [LoadConfig Host Port Server OTLP Endpoint ServiceName Environment].
  split; [| split; [| split; [| split]]]; by apply getEnv_nonempty.
Qed.

(** X4. A variable set to the empty string counts as unset: for every
    variable name, setting it to the empty string and removing it give the
    same configuration. *)
Theorem LoadConfig_empty_value_is_unset
    (environ : gmap string string) (key : string) :
  LoadConfig (<[ key := "" ]> environ) = LoadConfig (delete key environ).
Proof.
  unfold LoadConfig, getEnv, getEnvBool.
  by rewrite !Getenv_empty_value.
Qed.

End ConfigMoreFacts.

(** ** The middleware *)

Section MiddlewareMoreFacts.
Import golang telemetry runtime response middleware.

Lemma ServeHTTP_direct_adds next : ∀ c,
  adds (ServeHTTP_direct next c) = adds c.
Proof.
  induction next as [| [pattern | call] rest IH]; intros c; cbn; [done | |];
    by rewrite IH.
Qed.

Lemma ServeHTTP_transparent next : ∀ w c c',
  written c = written c' → rctx c = rctx c' →
  written (ServeHTTP next w c).2 = written (ServeHTTP_direct next c')
  ∧ rctx (ServeHTTP next w c).2 = rctx (ServeHTTP_direct next c').
Proof.
  induction next as [| s rest IH]; intros w c c' Hw Hr; cbn [ServeHTTP].
  - done.
  - rewrite step_spec. destruct s as [pattern | call]; cbn [ServeHTTP_direct].
    + apply IH; cbn; [done | by rewrite Hr].
    + apply IH; destruct (incrementDone w || negb (writes (Call call)));
        cbn; congruence.
Qed.


(** X5. The tracker only adds to its counter. What reaches the embedded
    writer and what the router leaves in the route context are what the
    chain produces when it is served without the middleware; and when the
    instrument could not be created the chain is served as it is and
    nothing is added. *)
Theorem tracker_is_transparent (r : Request) (next : list Step) (c : Conn) :
  written (ActiveRequestsMiddleware None next r c)
  = written (ServeHTTP_direct next c)
  ∧ rctx (ActiveRequestsMiddleware None next r c)
    = rctx (ServeHTTP_direct next c)
  ∧ ∀ err,
      written (ActiveRequestsMiddleware (Some err) next r c)
      = written (ServeHTTP_direct next c)
      ∧ adds (ActiveRequestsMiddleware (Some err) next r c) = adds c.
Proof.
  set (wrapper := {| request := r; incrementDone := false;
                     decrementDone := false |}).
  destruct (ServeHTTP_transparent next wrapper c c eq_refl eq_refl)
    as [Hw Hr].
  destruct (ServeHTTP_flags next wrapper c) as (_ & Hd & _).
  unfold ActiveRequestsMiddleware. fold wrapper.
  destruct (ServeHTTP next wrapper c) as [w1 c1]. cbn [fst snd] in *.
  rewrite ensureDecrement_spec by (by rewrite Hd). cbn [snd].
  split; [| split].
  - by destruct (incrementDone w1).
  - by destruct (incrementDone w1).
  - intros err. split; [done | apply ServeHTTP_direct_adds].
Qed.

Lemma ServeHTTP_incremented_adds late : ∀ w c,
  incrementDone w = true → adds (ServeHTTP late w c).2 = adds c.
Proof.
  induction late as [| s rest IH]; intros w c Hi; cbn [ServeHTTP]; [done |].
  rewrite step_spec, Hi. cbn [orb]. rewrite IH by done.
  by destruct s.
Qed.

(** X6. Finalization happens once. After the middleware has finalized a
    request, finalizing again changes nothing, and writes that arrive
    late on the wrapper reach the writer without touching the counter. *)
Theorem tracker_finalizes_once (r : Request) (next late : list Step)
    (c : Conn) :
  let wrapper := {| request := r; incrementDone := false;
                    decrementDone := false |} in
  let served := ServeHTTP next wrapper c in
  let final := ensureDecrement served.1 served.2 in
  ensureDecrement final.1 final.2 = final
  ∧ adds (ServeHTTP late final.1 final.2).2 = adds final.2
  ∧ written (ServeHTTP late final.1 final.2).2
    = written (ServeHTTP_direct late final.2).
Proof.
  intros wrapper served final.
  destruct (ServeHTTP_flags next wrapper c) as (_ & Hd & _).
  fold served in Hd.
  assert (final.1 = {| request := request served.1; incrementDone := true;
                       decrementDone := true |}) as Hfinal.
  { unfold final. by rewrite ensureDecrement_spec by (by rewrite Hd). }
  split; [| split].
  - transitivity (final.1, final.2); [| by destruct final].
    rewrite Hfinal. reflexivity.
  - apply ServeHTTP_incremented_adds. by rewrite Hfinal.
  - by apply ServeHTTP_transparent.
Qed.





Lemma Log_line l ctx level msg attrs out :
  Log l ctx level msg attrs out
  = out ++ [ {| lineLevel := level; lineMessage := msg;
                lineFields :=
                  ownAttrs (loggerHandler l) ++ attrs
                  ++ mjoin (replicate (wrappers (loggerHandler l))
                                      (traceFields ctx ++ routeFields ctx)) |} ].
Proof. unfold Log. by rewrite Handle_line. Qed.

(** X8. The route middleware fixes the route of the request's log lines
    when it runs: a line logged behind it through the logger of
    [initLogger] carries [http.route] with the pattern the route context
    holds at that time, or the raw path when the pattern is still empty or
    there is no route context, and carries no [http.route] when that is
    empty too; a route already in the context is replaced, the span is
    kept. *)
Theorem HTTPRouteContext_fixes_log_route
    (cfg : config.OTLPConfig) (r : Request) (c : Conn) (ctx : Context)
    (level : Level) (msg : string) (attrs : list Attr) (out : list LogLine) :
  http_middleware.HTTPRouteContext
    (λ ctx', Log (initLogger cfg) ctx' level msg attrs out) r c ctx
  = out ++ [ {| lineLevel := level; lineMessage := msg;
                lineFields :=
                  [ ("service.name", String (config.ServiceName cfg));
                    ("environment", String (config.Environment cfg)) ]
                  ++ attrs ++ traceFields ctx
                  ++ (if decide (routeOf r (rctx c) = "") then []
                      else [ ("http.route", String (routeOf r (rctx c))) ]) |} ].
Proof.
  unfold http_middleware.HTTPRouteContext. rewrite Log_line.
  fold (routeOf r (rctx c)). cbn -[routeOf].
  unfold routeFields. cbn -[routeOf].
  destruct (decide (routeOf r (rctx c) = "")) as [He | Hne].
  - rewrite bool_decide_eq_false_2 by (intros H; by apply H).
    by rewrite !app_nil_r.
  - rewrite bool_decide_eq_true_2 by done. by rewrite !app_nil_r.
Qed.

Lemma served_statusCode calls : ∀ rw,
  otel_middleware.statusCode (otel_middleware.served calls rw)
  = default (otel_middleware.statusCode rw)
      (last (omap (λ call, match call with
                           | WriteHeader code => Some code
                           | _ => None
                           end) calls)).
Proof.
  induction calls as [| [k v | code | b] rest IH]; intros rw;
    [done | apply IH | | apply IH].
  change (otel_middleware.served (WriteHeader code :: rest) rw)
    with (otel_middleware.served rest
            (otel_middleware.responseWriter_WriteHeader code rw)).
  rewrite IH.
  change (omap ?f (WriteHeader code :: rest)) with (code :: omap f rest).
  destruct (omap _ rest) as [| x xs]; [done |].
  rewrite last_cons_cons.
  destruct (last (x :: xs)) eqn:Hlast; [done |].
  by apply last_None in Hlast.
Qed.

(** X9. The metrics middleware hands the chain's calls on unchanged and
    records one count and one duration for the request, both labelled with
    the method, the raw path and the status code of the last [WriteHeader]
    of the chain (200 when it never called it); the duration is the whole
    number of milliseconds between the two readings of the clock. *)
Theorem MetricsMiddleware_records {Obj} (meter : Meter)
    (next : M Obj (list WriterCall)) (r : Request) (ctx : Context)
    (w w1 : World Obj) (calls : list WriterCall) :
  next (set_clock_calls S w) = Some (calls, w1) →
  let attrs := [ ("http.method", String (Method r));
                 ("http.route", String (URLPath r));
                 ("http.status_code", Int (lastStatus calls)) ] in
  ∃ w',
    otel_middleware.MetricsMiddleware meter next r ctx w = Some (calls, w')
    ∧ measurements w'
      = measurements w1
        ++ [ {| instrument := "http.server.request.count"; amount := 1;
                labels := attrs |};
             {| instrument := "http.server.request.duration";
                amount := (clock_source (sources w1) (clock_calls w1)
                           - clock_source (sources w) (clock_calls w))
                          ÷ 1000000;
                labels := attrs |} ]
    ∧ storeOf w' = storeOf (set_clock_calls S w1).
Proof.
  intros Hnext attrs.
  unfold otel_middleware.MetricsMiddleware, otel_middleware.Histogram_Record,
    Add, bind, time_Now, modify, ret.
  cbn. rewrite Hnext. cbn.
  rewrite served_statusCode. fold (lastStatus calls).
  destruct (otlpReader (meterProvider meter)); cbn;
    eexists; (split; [reflexivity |]); cbn;
    by rewrite <- app_assoc.
Qed.

Lemma MetricsMiddleware_records_witness :
  ∃ w',
    otel_middleware.MetricsMiddleware
      {| meterProvider := MeterProvider_ demoNoOp; meterName := "products-api" |}
      (ret [WriteHeader 404; Write (Bytes "not found"); WriteHeader 200])
      {| Method := "GET"; URLPath := "/products/42"; Host := "localhost:8080" |}
      Background demoWorld
    = Some ([WriteHeader 404; Write (Bytes "not found"); WriteHeader 200], w')
    ∧ labels <$> measurements w'
      = [ [ ("http.method", String "GET");
            ("http.route", String "/products/42");
            ("http.status_code", Int 200) ];
          [ ("http.method", String "GET");
            ("http.route", String "/products/42");
            ("http.status_code", Int 200) ] ].
Proof.
  destruct (MetricsMiddleware_records
              {| meterProvider := MeterProvider_ demoNoOp;
                 meterName := "products-api" |}
              (ret [WriteHeader 404; Write (Bytes "not found"); WriteHeader 200])
              {| Method := "GET"; URLPath := "/products/42";
                 Host := "localhost:8080" |}
              Background demoWorld (set_clock_calls S demoWorld)
              [WriteHeader 404; Write (Bytes "not found"); WriteHeader 200]
              eq_refl)
    as (w' & Hrun & Hm & _).
  exists w'. split; [exact Hrun |]. rewrite Hm. reflexivity.
Defined.

(** X10. The request log writes one line per request, after the chain has
    returned: at level info below status 400, warn from 400 to 499, error
    from 500; the route is the pattern the route context holds by then (the
    raw path when it is empty or there is none); the duration is the
    difference of the two readings of the clock. When the request's span is
    valid the middleware adds the trace and span identifiers itself, and a
    logger that enriches records adds them again. *)
Theorem StructuredLogger_logs_one_line {Obj} (lib : http_middleware.TimeLib)
    (logger : Logger) (next : M Obj http_middleware.Served)
    (r : http_middleware.HTTPRequest) (ctx : Context)
    (w w1 : World Obj) (ww : http_middleware.Served) :
  next (set_clock_calls S w) = Some (ww, w1) →
  let duration := (clock_source (sources w1) (clock_calls w1)
                   - clock_source (sources w) (clock_calls w))%Z in
  ∃ w',
    http_middleware.StructuredLogger lib logger next r ctx w = Some (tt, w')
    ∧ storeOf w' = storeOf (set_clock_calls S w1)
    ∧ stdout w'
      = stdout w1
        ++ [ {| lineLevel :=
                  if bool_decide (http_middleware.Status ww < 400)%Z
                  then LevelInfo
                  else if bool_decide (http_middleware.Status ww < 500)%Z
                  then LevelWarn
                  else LevelError;
                lineMessage := "HTTP request completed";
                lineFields :=
                  ownAttrs (loggerHandler logger)
                  ++ [ ("http.request.method",
                        String (Method (http_middleware.line r)));
                       ("http.route",
                        String (routeOf (http_middleware.line r)
                                        (http_middleware.servedRctx ww)));
                       ("url.path", String (URLPath (http_middleware.line r)));
                       ("url.query", String (http_middleware.RawQuery r));
                       ("http.response.status_code",
                        Int (http_middleware.Status ww));
                       ("http.response.body.size",
                        Int (http_middleware.BytesWritten ww));
                       ("duration",
                        String (http_middleware.Duration_String lib duration));
                       ("duration_ms",
                        Float64 (http_middleware.float64 lib
                                   (duration ÷ 1000000)%Z));
                       ("client.address", String (http_middleware.RemoteAddr r));
                       ("user_agent", String (http_middleware.UserAgent r)) ]
                  ++ traceFields ctx
                  ++ mjoin (replicate (wrappers (loggerHandler logger))
                                      (traceFields ctx ++ routeFields ctx)) |} ].
Proof.
  intros Hnext duration.
  unfold http_middleware.StructuredLogger, LogContext, bind, time_Now, modify.
  rewrite Hnext. cbn [clock_calls sources set_clock_calls].
  eexists. split; [reflexivity |]. split; [reflexivity |].
  cbn [stdout set_stdout set_clock_calls]. rewrite Log_line.
  fold (routeOf (http_middleware.line r) (http_middleware.servedRctx ww)).
  fold duration. do 2 f_equal. f_equal.
  - repeat case_bool_decide; try done; lia.
  - f_equal. rewrite (app_assoc _ (traceFields ctx)). f_equal.
    unfold traceFields.
    destruct (IsValid (SpanFromContext ctx)); [done | by rewrite app_nil_r].
Qed.

Lemma StructuredLogger_logs_one_line_witness :
  ∃ w',
    http_middleware.StructuredLogger
      {| http_middleware.Duration_String := λ _, "417ns";
         http_middleware.float64 := λ _, 0%float |}
      (initLogger demoConfig)
      (ret {| http_middleware.Status := 404;
              http_middleware.BytesWritten := 53;
              http_middleware.servedRctx := Some "/products/{id}" |})
      {| http_middleware.line :=
           {| Method := "GET"; URLPath := "/products/42";
              Host := "localhost:8080" |};
         http_middleware.RawQuery := "";
         http_middleware.URL_String := "/products/42";
         http_middleware.RemoteAddr := "127.0.0.1:51234";
         http_middleware.UserAgent := "curl/8.5.0" |}
      Background demoWorld
    = Some (tt, w')
    ∧ (lineLevel <$> stdout w') = [LevelWarn].
Proof.
  destruct (StructuredLogger_logs_one_line
              {| http_middleware.Duration_String := λ _, "417ns";
                 http_middleware.float64 := λ _, 0%float |}
              (initLogger demoConfig)
              (ret {| http_middleware.Status := 404;
                      http_middleware.BytesWritten := 53;
                      http_middleware.servedRctx := Some "/products/{id}" |})
              {| http_middleware.line :=
                   {| Method := "GET"; URLPath := "/products/42";
                      Host := "localhost:8080" |};
                 http_middleware.RawQuery := "";
                 http_middleware.URL_String := "/products/42";
                 http_middleware.RemoteAddr := "127.0.0.1:51234";
                 http_middleware.UserAgent := "curl/8.5.0" |}
              Background demoWorld (set_clock_calls S demoWorld) _ eq_refl)
    as (w' & Hrun & _ & Hout).
  exists w'. split; [exact Hrun |]. rewrite Hout. reflexivity.
Defined.

End MiddlewareMoreFacts.

(** ** Shutting the telemetry down *)

Section LifecycleFacts.
Import golang telemetry runtime.

(** X11. Shutdown stops at the first provider that fails to shut down: it
    returns that provider's error, and when the tracer provider fails the
    meter provider is never shut down. It logs an opening line, and then
    one closing line, at error level when it returns an error and at info
    level otherwise. *)
Theorem Shutdown_stops_at_first_failure
    (t : Telemetry) (tpErr mpErr : option error) (out : list LogLine) :
  ∃ opening closing,
    lifecycle.Shutdown t tpErr mpErr out
    = (match tpErr with Some err => Some err | None => mpErr end,
       lifecycle.TracerProviderShutdown
         :: match tpErr with
            | Some _ => []
            | None => [lifecycle.MeterProviderShutdown]
            end,
       out ++ [opening; closing])
    ∧ lineMessage opening = "Shutting down OpenTelemetry"
    ∧ lineLevel closing
      = match tpErr, mpErr with
        | None, None => LevelInfo
        | _, _ => LevelError
        end.
Proof.
  unfold lifecycle.Shutdown.
  destruct tpErr as [err |]; [| destruct mpErr as [err |]];
    rewrite !Log_line, <- app_assoc; by eexists _, _.
Qed.

End LifecycleFacts.

(** ** The use cases and the handlers over the in-memory repository *)

Section UseCaseMoreFacts.
Import golang telemetry runtime domain response.

#[local] Abbreviation Service := (service.ProductService memory.ProductRepository).
#[local] Abbreviation Handler := (handler.ProductHandler memory.ProductRepository).

Lemma find_Some (w : World Product) id this :
  find w id = Some this
  ↔ ∃ p, products w !! id = Some p ∧ heap w !! p = Some this.
Proof.
  unfold find. destruct (products w !! id) as [p |]; cbn.
  - split; [by exists p | by intros (q & [= <-] & ?)].
  - split; [done | by intros (q & ? & _)].
Qed.

Lemma find_None (w : World Product) id :
  wf w → find w id = None ↔ products w !! id = None.
Proof.
  intros Hwf. unfold find.
  destruct (products w !! id) as [p |] eqn:Hp; [| done].
  destruct (Hwf id p Hp) as [this Hthis].
  split; [intros Hnone; exfalso | done].
  assert (Some this = None) as Habsurd; [| done].
  transitivity (Some p ≫= λ p : ptr, heap w !! p); [symmetry; exact Hthis |].
  exact Hnone.
Qed.

Lemma wp_service_GetProductByID (s : Service) ctx id Q (w : World Product) :
  wf w →
  (∀ w', storeOf w' = storeOf w →
         Q (match find w id with
            | Some this => inr (responseOf this)
            | None => inl ErrProductNotFound
            end) w') →
  wp (service.GetProductByID s ctx id) Q w.
Proof.
  intros Hwf HQ. unfold service.GetProductByID.
  repeat wp_step.
  assert (wf w'1) as Hwf1.
  { apply (wf_grow w w'1 []); [done | rewrite app_nil_r | ]; by store_rewrite. }
  eapply wp_memory_FindByID; [exact Hwf1 |]. intros w2 Hw2.
  assert (products w'1 = products w) as Hpw by (by store_rewrite).
  rewrite Hpw.
  destruct (products w !! id) as [product |] eqn:Hfound.
  - destruct (Hwf id product Hfound) as [this Hthis].
    assert (find w id = Some this) as Hfind by (apply find_Some; eauto).
    rewrite Hfind in HQ.
    repeat wp_step.
    eapply wp_ToProductResponse; [store_rewrite; exact Hthis |].
    repeat wp_step. apply HQ. unfold storeOf. by store_rewrite.
  - apply (find_None w id Hwf) in Hfound. rewrite Hfound in HQ.
    repeat wp_step. apply HQ. unfold storeOf. by store_rewrite.
Qed.

Lemma wp_ToProductResponseList_stored ps Q (w : World Product) :
  Forall (λ p, is_Some (heap w !! p)) ps →
  (∀ responses,
      Forall2 (λ p resp, responseOf <$> heap w !! p = Some resp) ps responses →
      Q responses w) →
  wp (dto.ToProductResponseList ps) Q w.
Proof.
  revert Q. induction ps as [| p ps IH]; intros Q Hall HQ;
    cbn [dto.ToProductResponseList].
  - wp_step. by apply HQ.
  - apply Forall_cons in Hall as [[this Hp] Hall].
    wp_step. eapply wp_ToProductResponse; [exact Hp |].
    wp_step. apply IH; [exact Hall |]. intros responses Hresp.
    wp_step. apply HQ. constructor; [by rewrite Hp | done].
Qed.

Lemma wp_service_ListProducts (s : Service) ctx Q (w : World Product) :
  wf w →
  (∀ w' responses,
      storeOf w' = storeOf w →
      Forall2 (λ p resp, responseOf <$> heap w !! p = Some resp)
              (map_to_list (products w)).*2 responses →
      Q (inr responses) w') →
  wp (service.ListProducts s ctx) Q w.
Proof.
  intros Hwf HQ. unfold service.ListProducts.
  repeat wp_step.
  eapply wp_memory_FindAll. intros w2 Hw2.
  repeat wp_step.
  lazymatch goal with
  | |- wp (dto.ToProductResponseList (map_to_list (products ?wa)).*2) _ ?wb =>
      assert (heap wb = heap w) as Hh by (by store_rewrite);
      assert (products wa = products w) as Hp by (by store_rewrite)
  end.
  apply wp_ToProductResponseList_stored.
  - rewrite Hh, Hp. by apply wf_snapshot.
  - intros responses Hresp. repeat wp_step. apply HQ.
    + unfold storeOf. by store_rewrite.
    + by rewrite <- Hh, <- Hp.
Qed.

Lemma length_omap_all {A B} (f : A → option B) (l : list A) :
  Forall (λ x, is_Some (f x)) l → length (omap f l) = length l.
Proof.
  induction 1 as [| x l [y Hy] _ IH]; [done |].
  cbn [omap list_omap]. rewrite Hy. cbn. by rewrite IH.
Qed.

Lemma responses_stored (w : World Product) ps responses :
  Forall2 (λ p resp, responseOf <$> heap w !! p = Some resp) ps responses →
  responses = responseOf <$> omap (λ p : ptr, heap w !! p) ps.
Proof.
  induction 1 as [| p resp ps responses Hp _ IH]; [done |].
  cbn [omap list_omap]. destruct (heap w !! p) as [this |]; [| done].
  injection Hp as <-. cbn. by rewrite IH.
Qed.

Lemma wp_handler_GetProduct (h : Handler) ctx id Q (w : World Product) :
  wf w →
  (∀ w', storeOf w' = storeOf w →
         Q (match find w id with
            | Some this => JSON StatusOK (JSONProduct (responseOf this))
            | None =>
                JSON StatusNotFound
                  (JSONError {| ErrorLabel := "not_found";
                                Message := "product not found" |})
            end) w') →
  wp (handler.GetProduct h ctx id) Q w.
Proof.
  intros Hwf HQ. unfold handler.GetProduct. wp_step.
  apply wp_service_GetProductByID; [done |]. intros w' Hw'.
  specialize (HQ w' Hw').
  destruct (find w id) as [this |]; [by wp_step |].
  rewrite bool_decide_eq_true_2 by done. by wp_step.
Qed.

Lemma wp_handler_ListProducts (h : Handler) ctx Q (w : World Product) :
  wf w →
  (∀ w', storeOf w' = storeOf w →
         Q (JSON StatusOK (JSONProducts (responseOf <$> stored w))) w') →
  wp (handler.ListProducts h ctx) Q w.
Proof.
  intros Hwf HQ. unfold handler.ListProducts. wp_step.
  apply wp_service_ListProducts; [done |]. intros w' responses Hw' Hresp.
  wp_step. apply responses_stored in Hresp as ->. by apply HQ.
Qed.

Lemma wp_handler_CreateProduct (h : Handler) ctx body Q (w : World Product) :
  (∀ w',
      match body with
      | inl _ => storeOf w' = storeOf w
      | inr req =>
          sources w' = sources w
          ∧ uuid_calls w' = S (uuid_calls w)
          ∧ heap w' = heap w ++ [productOf req w]
          ∧ products w'
            = (if valid req
               then <[ ID (productOf req w) := length (heap w) ]> (products w)
               else products w)
      end →
      Q (match body with
         | inl err =>
             JSON StatusBadRequest
               (JSONError {| ErrorLabel := "bad_request";
                             Message := golang.Error err |})
         | inr req =>
             if bool_decide (dto.Name req = "")
             then JSON StatusBadRequest
                    (JSONError {| ErrorLabel := "bad_request";
                                  Message := "product name is required" |})
             else if PrimFloat.leb (dto.Price req) 0
             then JSON StatusBadRequest
                    (JSONError {| ErrorLabel := "bad_request";
                                  Message := "product price must be positive" |})
             else JSON StatusCreated
                    (JSONProduct (responseOf (productOf req w)))
         end) w') →
  wp (handler.CreateProduct h ctx body) Q w.
Proof.
  intros HQ. unfold handler.CreateProduct. destruct body as [err | req].
  - repeat wp_step. by apply HQ.
  - wp_step. apply wp_service_CreateProduct.
    intros w' Hsrc Hu Hc Hh Hp.
    specialize (HQ w' (conj Hsrc (conj Hu (conj Hh Hp)))).
    destruct (bool_decide (dto.Name req = ""));
      [| destruct (PrimFloat.leb (dto.Price req) 0)].
    + rewrite bool_decide_eq_true_2 by (by left). by wp_step.
    + rewrite bool_decide_eq_true_2 by (by right). by wp_step.
    + by wp_step.
Qed.

Ltac status_listed :=
  repeat first [ apply list_elem_of_here | apply list_elem_of_further ].

Lemma answered_JSON status payload :
  status ∈ [StatusOK; StatusCreated; StatusBadRequest; StatusNotFound] →
  answered (JSON status payload).
Proof. intros Hs. by exists status, payload. Qed.

Lemma wp_serve_answered (h : Handler) ctx req (w : World Product) :
  wf w →
  wp (main.serve h ctx req) (λ calls w', answered calls ∧ wf w') w.
Proof.
  intros Hwf. destruct req as [body | | id]; cbn [main.serve].
  - apply wp_handler_CreateProduct. intros w' Hw'. split.
    + destruct body as [err | req];
        [| destruct (bool_decide _); [| destruct (PrimFloat.leb _ _)]];
        apply answered_JSON; status_listed.
    + destruct body as [err | req].
      * by apply (kept_same w w').
      * destruct Hw' as (Hsrc & Hu & Hh & Hp). destruct (valid req).
        -- by eapply wf_insert_new.
        -- by eapply wf_grow.
  - apply wp_handler_ListProducts; [done |]. intros w' Hw'. split.
    + apply answered_JSON; status_listed.
    + by apply (kept_same w w').
  - apply wp_handler_GetProduct; [done |]. intros w' Hw'. split.
    + destruct (find w id); apply answered_JSON; status_listed.
    + by apply (kept_same w w').
Qed.

Lemma wp_serveAll_answered (h : Handler) reqs : ∀ w : World Product,
  wf w →
  wp (main.serveAll h reqs)
     (λ resps w', length resps = length reqs ∧ Forall answered resps) w.
Proof.
  induction reqs as [| [ctx req] reqs IH]; intros w Hwf; cbn [main.serveAll].
  - by wp_step.
  - wp_step. eapply wp_mono; [by apply wp_serve_answered |].
    intros calls w1 [Hcalls Hwf1]. wp_step.
    eapply wp_mono; [by apply IH |].
    intros resps w2 [Hlen Hall]. wp_step. split.
    + cbn. by rewrite Hlen.
    + by constructor.
Qed.

(** X12. Looking a product up answers from the store alone: [200] with the
    record stored under the identifier, or [404] with the label
    [not_found] and the message [product not found]; the store, the clock
    and the identifier source are as before. *)
Theorem GetProduct_answers_from_the_store
    (h : Handler) (ctx : Context) (id : string) (w : World Product) :
  wf w →
  ∃ w',
    handler.GetProduct h ctx id w
    = Some (match find w id with
            | Some this => JSON StatusOK (JSONProduct (responseOf this))
            | None =>
                JSON StatusNotFound
                  (JSONError {| ErrorLabel := "not_found";
                                Message := "product not found" |})
            end, w')
    ∧ storeOf w' = storeOf w.
Proof.
  intros Hwf.
  cut (wp (handler.GetProduct h ctx id)
          (λ calls w',
             calls = match find w id with
                     | Some this => JSON StatusOK (JSONProduct (responseOf this))
                     | None =>
                         JSON StatusNotFound
                           (JSONError {| ErrorLabel := "not_found";
                                         Message := "product not found" |})
                     end
             ∧ storeOf w' = storeOf w) w).
  { intros Hwp. apply wp_run in Hwp as (calls & w' & Hrun & -> & Hs).
    by exists w'. }
  by apply wp_handler_GetProduct.
Qed.

Lemma GetProduct_answers_from_the_store_witness :
  ∃ w',
    handler.GetProduct (handlerOf demoNoOp) Background
      "550e8400-e29b-41d4-a716-446655440000" demoStored
    = Some (JSON StatusOK
              (JSONProduct
                 {| dto.ID := "550e8400-e29b-41d4-a716-446655440000";
                    dto.RespName := "Laptop";
                    dto.RespDescription := "High-performance laptop";
                    dto.RespPrice := 0x1.44ff5c28f5c29p+10%float;
                    dto.CreatedAt := 1766224800000000000%Z;
                    dto.UpdatedAt := 1766224800000000417%Z |}), w').
Proof.
  destruct (GetProduct_answers_from_the_store (handlerOf demoNoOp) Background
              "550e8400-e29b-41d4-a716-446655440000" demoStored demoStored_wf)
    as (w' & Hrun & _).
  exists w'. exact Hrun.
Defined.

(** X13. Listing answers [200] with one response per stored identifier:
    the responses are those of the stored records, in some order, and the
    store is as before. *)
Theorem ListProducts_answers_with_the_stored_records
    (h : Handler) (ctx : Context) (w : World Product) :
  wf w →
  ∃ responses w',
    handler.ListProducts h ctx w
    = Some (JSON StatusOK (JSONProducts responses), w')
    ∧ responses ≡ₚ responseOf <$> stored w
    ∧ length responses = size (products w)
    ∧ (∀ id this, find w id = Some this → responseOf this ∈ responses)
    ∧ storeOf w' = storeOf w.
Proof.
  intros Hwf.
  cut (wp (handler.ListProducts h ctx)
          (λ calls w',
             calls = JSON StatusOK (JSONProducts (responseOf <$> stored w))
             ∧ storeOf w' = storeOf w) w).
  { intros Hwp. apply wp_run in Hwp as (calls & w' & Hrun & -> & Hs).
    exists (responseOf <$> stored w), w'.
    assert (length (stored w) = size (products w)) as Hlen.
    { unfold stored. rewrite <- length_map_to_list, <- (length_fmap snd).
      apply length_omap_all, (wf_snapshot w Hwf). }
    repeat split; [done | done | by rewrite length_fmap | | done].
    intros id this Hfind. apply find_Some in Hfind as (p & Hid & Hp).
    apply list_elem_of_fmap. exists this. split; [done |].
    unfold stored. apply list_elem_of_omap. exists p. split; [| done].
    apply elem_of_snapshot. by exists id. }
  by apply wp_handler_ListProducts.
Qed.

Lemma ListProducts_answers_with_the_stored_records_witness :
  ∃ responses w',
    handler.ListProducts (handlerOf demoNoOp) Background demoStored
    = Some (JSON StatusOK (JSONProducts responses), w')
    ∧ length responses = 1.
Proof.
  destruct (ListProducts_answers_with_the_stored_records (handlerOf demoNoOp)
              Background demoStored demoStored_wf)
    as (responses & w' & Hrun & _ & Hlen & _).
  exists responses, w'. split; [exact Hrun | exact Hlen].
Defined.

(** X14. Creating answers [400] with the label [bad_request] when the body
    does not decode (the message is the decoder's error, and nothing is
    allocated, no identifier drawn and the clock not read), [400] with the
    message of the failed rule when the name is empty or else the price is
    not positive, and [201] with the new record otherwise; it never answers
    [500]. *)
Theorem CreateProduct_answers
    (h : Handler) (ctx : Context) (body : error + dto.CreateProductRequest)
    (w : World Product) :
  ∃ w',
    handler.CreateProduct h ctx body w
    = Some (match body with
            | inl err =>
                JSON StatusBadRequest
                  (JSONError {| ErrorLabel := "bad_request";
                                Message := golang.Error err |})
            | inr req =>
                if bool_decide (dto.Name req = "")
                then JSON StatusBadRequest
                       (JSONError {| ErrorLabel := "bad_request";
                                     Message := "product name is required" |})
                else if PrimFloat.leb (dto.Price req) 0
                then JSON StatusBadRequest
                       (JSONError
                          {| ErrorLabel := "bad_request";
                             Message := "product price must be positive" |})
                else JSON StatusCreated
                       (JSONProduct (responseOf (productOf req w)))
            end, w')
    ∧ (∀ err, body = inl err → storeOf w' = storeOf w).
Proof.
  cut (wp (handler.CreateProduct h ctx body)
          (λ calls w',
             calls = match body with
                     | inl err =>
                         JSON StatusBadRequest
                           (JSONError {| ErrorLabel := "bad_request";
                                         Message := golang.Error err |})
                     | inr req =>
                         if bool_decide (dto.Name req = "")
                         then JSON StatusBadRequest
                                (JSONError
                                   {| ErrorLabel := "bad_request";
                                      Message := "product name is required" |})
                         else if PrimFloat.leb (dto.Price req) 0
                         then JSON StatusBadRequest
                                (JSONError
                                   {| ErrorLabel := "bad_request";
                                      Message :=
                                        "product price must be positive" |})
                         else JSON StatusCreated
                                (JSONProduct (responseOf (productOf req w)))
                     end
             ∧ (∀ err, body = inl err → storeOf w' = storeOf w)) w).
  { intros Hwp. apply wp_run in Hwp as (calls & w' & Hrun & -> & Hs).
    by exists w'. }
  apply wp_handler_CreateProduct. intros w' Hw'. split; [done |].
  by intros err ->.
Qed.

(** X15. A product that was created is found: after a create request that
    passes validation, looking up the identifier of the response, through
    any service over the same repository, gives the same response again,
    and a listing contains it. *)
Theorem created_product_is_found
    (s s' : Service) (ctx ctx' : Context) (req : dto.CreateProductRequest)
    (w : World Product) :
  wf w → valid req = true →
  ∃ resp w1,
    service.CreateProduct s ctx req w = Some (inr resp, w1)
    ∧ (∃ w2, service.GetProductByID s' ctx' (dto.ID resp) w1
             = Some (inr resp, w2))
    ∧ (∃ responses w2, service.ListProducts s' ctx' w1
                       = Some (inr responses, w2)
                       ∧ resp ∈ responses).
Proof.
  intros Hwf Hvalid.
  cut (wp (service.CreateProduct s ctx req)
          (λ a w1, a = inr (responseOf (productOf req w))
             ∧ wf w1
             ∧ find w1 (ID (productOf req w)) = Some (productOf req w)) w).
  { intros Hwp. apply wp_run in Hwp as (a & w1 & Hrun & -> & Hwf1 & Hfind).
    exists (responseOf (productOf req w)), w1. split; [exact Hrun |]. split.
    - cut (wp (service.GetProductByID s' ctx' (ID (productOf req w)))
              (λ a _, a = inr (responseOf (productOf req w))) w1).
      { intros Hwp. apply wp_run in Hwp as (a & w2 & Hget & ->). by exists w2. }
      apply wp_service_GetProductByID; [done |]. intros w2 _. by rewrite Hfind.
    - cut (wp (service.ListProducts s' ctx')
              (λ a _, ∃ responses, a = inr responses
                 ∧ responseOf (productOf req w) ∈ responses) w1).
      { intros Hwp. apply wp_run in Hwp as (a & w2 & Hlist & rs & -> & Hin).
        by exists rs, w2. }
      apply wp_service_ListProducts; [done |]. intros w2 responses _ Hresp.
      exists responses. split; [done |].
      apply responses_stored in Hresp as ->.
      apply find_Some in Hfind as (p & Hid & Hp).
      apply list_elem_of_fmap. exists (productOf req w). split; [done |].
      apply list_elem_of_omap. exists p. split; [| done].
      apply elem_of_snapshot. by eexists. }
  apply wp_service_CreateProduct. intros w1 Hsrc Hu Hc Hh Hp.
  rewrite Hvalid in Hp. unfold valid in Hvalid.
  apply andb_true_iff in Hvalid as [Hn Hpr].
  apply negb_true_iff in Hn, Hpr. rewrite Hn, Hpr.
  split; [done |]. split; [by eapply wf_insert_new |].
  apply find_Some. exists (length (heap w)). split.
  - rewrite Hp. apply lookup_insert_eq.
  - rewrite Hh. apply lookup_new.
Qed.

Lemma created_product_is_found_witness :
  ∃ resp w1 w2,
    service.CreateProduct demoService Background laptop demoWorld
    = Some (inr resp, w1)
    ∧ service.GetProductByID demoService Background (dto.ID resp) w1
      = Some (inr resp, w2).
Proof.
  destruct (created_product_is_found demoService demoService Background
              Background laptop demoWorld)
    as (resp & w1 & Hrun & [w2 Hget] & _).
  - intros id p Hid. cbn in Hid. by rewrite lookup_empty in Hid.
  - reflexivity.
  - exists resp, w1, w2. split; [exact Hrun | exact Hget].
Defined.

(** X16. Creating a product touches no other product: whatever the request,
    every identifier but the one just drawn finds what it found before;
    and when the request passes validation and the drawn identifier is
    new, the store holds one product more. *)
Theorem CreateProduct_leaves_other_products
    (s : Service) (ctx : Context) (req : dto.CreateProductRequest)
    (w : World Product) :
  wf w →
  ∃ a w',
    service.CreateProduct s ctx req w = Some (a, w')
    ∧ wf w'
    ∧ (∀ id, id ≠ uuid_source (sources w) (uuid_calls w) →
             find w' id = find w id)
    ∧ (valid req = true →
       products w !! uuid_source (sources w) (uuid_calls w) = None →
       size (products w') = S (size (products w))).
Proof.
  intros Hwf.
  cut (wp (service.CreateProduct s ctx req)
          (λ _ w',
             heap w' = heap w ++ [productOf req w]
             ∧ products w'
               = (if valid req
                  then <[ ID (productOf req w) := length (heap w) ]> (products w)
                  else products w)) w).
  { intros Hwp. apply wp_run in Hwp as (a & w' & Hrun & Hh & Hp).
    exists a, w'. split; [exact Hrun |].
    assert (∀ id p, products w !! id = Some p →
              heap w' !! p = heap w !! p) as Hold.
    { intros id p Hid. destruct (Hwf id p Hid) as [this Hthis].
      rewrite Hh. transitivity (Some this); [| by symmetry].
      by apply lookup_app_l_Some. }
    assert (wf w') as Hwf'.
    { destruct (valid req); [by eapply wf_insert_new | by eapply wf_grow]. }
    split; [exact Hwf' | split].
    - intros id Hid.
      assert (products w' !! id = products w !! id) as Hpid.
      { rewrite Hp. destruct (valid req); [| done].
        by apply lookup_insert_ne. }
      destruct (find w id) as [this |] eqn:Hfind.
      + apply find_Some in Hfind as (p & Hfound & Hthis).
        apply find_Some. exists p. split; [by rewrite Hpid |].
        by rewrite (Hold id p Hfound).
      + apply (find_None w id Hwf) in Hfind.
        apply (find_None w' id Hwf'). by rewrite Hpid.
    - intros Hvalid Hfresh. rewrite Hp, Hvalid.
      by rewrite map_size_insert_None. }
  apply wp_service_CreateProduct. intros w' Hsrc Hu Hc Hh Hp. by split.
Qed.

Lemma CreateProduct_leaves_other_products_witness :
  ∃ a w',
    service.CreateProduct demoService Background laptop demoWorld = Some (a, w')
    ∧ size (products w') = 1.
Proof.
  destruct (CreateProduct_leaves_other_products demoService Background laptop
              demoWorld)
    as (a & w' & Hrun & _ & _ & Hsize).
  - intros id p Hid. cbn in Hid. by rewrite lookup_empty in Hid.
  - exists a, w'. split; [exact Hrun |]. by apply Hsize.
Defined.

Lemma wp_serve_store (h : Handler) ctx req (w : World Product) :
  wf w → freshIdentifiers w →
  wp (main.serve h ctx req)
     (λ _ w',
        wf w' ∧ freshIdentifiers w'
        ∧ size (products w')
          = (if creates req then 1 else 0) + size (products w)
        ∧ (∀ id this, find w id = Some this → find w' id = Some this)) w.
Proof.
  intros Hwf [Hnew Hinj].
  assert (∀ w' : World Product, storeOf w' = storeOf w →
            wf w' ∧ freshIdentifiers w'
            ∧ size (products w') = size (products w)
            ∧ (∀ id this, find w id = Some this → find w' id = Some this))
    as Hsame.
  { intros w' Hs. pose proof (kept_same w w' Hwf Hs) as [Hwf' _].
    unfold storeOf in Hs. injection Hs as Hsrc Hh Hp Hu Hc.
    split; [done |]. split; [| split].
    - unfold freshIdentifiers. rewrite Hsrc, Hp, Hu. by split.
    - by rewrite Hp.
    - intros id this. rewrite !find_Some. by rewrite Hp, Hh. }
  destruct req as [[err | req] | | id]; cbn [main.serve creates].
  - apply wp_handler_CreateProduct. intros w' Hw'. by apply Hsame.
  - apply wp_handler_CreateProduct. intros w' (Hsrc & Hu & Hh & Hp).
    assert (∀ id this, find w id = Some this → find w' id = Some this)
      as Hkeep.
    { intros id this. rewrite !find_Some. intros (p & Hid & Hthis).
      exists p. split.
      - rewrite Hp. destruct (valid req); [| done].
        rewrite lookup_insert_ne; [done |].
        intros Heq. specialize (Hnew (uuid_calls w) (le_n _)).
        unfold productOf in Heq. cbn in Heq. congruence.
      - rewrite Hh. by apply lookup_app_l_Some. }
    destruct (valid req).
    + split; [by eapply wf_insert_new |]. split; [| split; [| done]].
      * split.
        -- intros i Hi. rewrite Hsrc, Hp. rewrite Hu in Hi.
           rewrite lookup_insert_ne; [apply Hnew; lia |].
           unfold productOf. cbn. intros Heq.
           apply Hinj in Heq; lia.
        -- intros i j Hi Hj. rewrite Hsrc. rewrite Hu in Hi, Hj.
           apply Hinj; lia.
      * rewrite Hp. rewrite map_size_insert_None; [done |].
        apply (Hnew (uuid_calls w)). done.
    + split; [by eapply wf_grow |]. split; [| split; [| done]].
      * split.
        -- intros i Hi. rewrite Hsrc, Hp. rewrite Hu in Hi. apply Hnew. lia.
        -- intros i j Hi Hj. rewrite Hsrc. rewrite Hu in Hi, Hj.
           apply Hinj; lia.
      * by rewrite Hp.
  - apply wp_handler_ListProducts; [done |]. intros w' Hw'. by apply Hsame.
  - apply wp_handler_GetProduct; [done |]. intros w' Hw'. by apply Hsame.
Qed.

(** X17. No product is lost while the identifiers drawn are new: serving
    any sequence of requests from a store whose coming identifiers are
    unused and distinct, the store ends with one product more for every
    create request that decodes and passes validation, and every product
    found before is found unchanged after. *)
Theorem serveAll_counts_products
    (h : Handler) (reqs : list (Context * main.Request)) (w : World Product) :
  wf w → freshIdentifiers w →
  ∃ resps w',
    main.serveAll h reqs w = Some (resps, w')
    ∧ size (products w') = creations reqs + size (products w)
    ∧ (∀ id this, find w id = Some this → find w' id = Some this).
Proof.
  intros Hwf Hfresh.
  cut (wp (main.serveAll h reqs)
          (λ _ w',
             size (products w') = creations reqs + size (products w)
             ∧ (∀ id this, find w id = Some this → find w' id = Some this))
          w).
  { intros Hwp. apply wp_run in Hwp as (resps & w' & Hrun & Hsize & Hkeep).
    by exists resps, w'. }
  revert w Hwf Hfresh.
  induction reqs as [| [ctx req] reqs IH]; intros w Hwf Hfresh;
    cbn [main.serveAll creations].
  - by wp_step.
  - wp_step. eapply wp_mono; [by apply wp_serve_store |].
    intros calls w1 (Hwf1 & Hfresh1 & Hsize1 & Hkeep1). wp_step.
    eapply wp_mono; [by apply IH |].
    intros resps w2 [Hsize2 Hkeep2]. wp_step. split.
    + rewrite Hsize2, Hsize1. lia.
    + intros id this Hfind. by apply Hkeep2, Hkeep1.
Qed.

Lemma tally_inj i j : tally i = tally j → i = j.
Proof.
  revert j. induction i as [| i IH]; intros [| j]; cbn; try done.
  intros [= Heq]. f_equal. by apply IH.
Qed.

Lemma serveAll_counts_products_witness :
  ∃ resps w',
    main.serveAll (handlerOf demoNoOp)
      [ (Background, main.PostProducts (inr laptop));
        (Background, main.GetProducts);
        (Background, main.PostProducts (inr laptop)) ] demoFresh
    = Some (resps, w')
    ∧ size (products w') = 2.
Proof.
  destruct (serveAll_counts_products (handlerOf demoNoOp)
              [ (Background, main.PostProducts (inr laptop));
                (Background, main.GetProducts);
                (Background, main.PostProducts (inr laptop)) ] demoFresh)
    as (resps & w' & Hrun & Hsize & _).
  - intros id p Hid. cbn in Hid. by rewrite lookup_empty in Hid.
  - split.
    + intros i _. apply lookup_empty.
    + intros i j _ _. apply tally_inj.
  - exists resps, w'. split; [exact Hrun | exact Hsize].
Defined.

(** X18. A process starts with an empty store, whatever world it starts
    in: the first listing answers [200] with no product, and a lookup of
    any identifier answers [404]. *)
Theorem fresh_process_has_no_products
    (telem : Telemetry) (ctx ctx' : Context) (id : string)
    (w : World Product) :
  ∃ w',
    program telem [ (ctx, main.GetProducts); (ctx', main.GetProductByID id) ] w
    = Some ([ JSON StatusOK (JSONProducts []);
              JSON StatusNotFound
                (JSONError {| ErrorLabel := "not_found";
                              Message := "product not found" |}) ], w').
Proof.
  cut (wp (program telem
             [ (ctx, main.GetProducts); (ctx', main.GetProductByID id) ])
          (λ resps _,
             resps = [ JSON StatusOK (JSONProducts []);
                       JSON StatusNotFound
                         (JSONError {| ErrorLabel := "not_found";
                                       Message := "product not found" |}) ])
          w).
  { intros H. apply wp_run in H as (resps & w' & Hrun & ->). by exists w'. }
  unfold program, main.wire, memory.NewProductRepository.
  repeat wp_step. cbn [main.serveAll main.serve].
  assert (∀ w0 : World Product, products w0 = ∅ → wf w0) as Hempty.
  { intros w0 Hp id' p. by rewrite Hp, lookup_empty. }
  wp_step. apply wp_handler_ListProducts; [by apply Hempty |].
  intros w1 Hw1. unfold stored. cbn [products set_products].
  rewrite map_to_list_empty. cbn [fmap list_fmap omap list_omap].
  unfold storeOf in Hw1. cbn in Hw1. injection Hw1 as Hsrc Hh Hp Hu Hc.
  repeat wp_step. apply wp_handler_GetProduct; [by apply Hempty |].
  intros w2 _.
  assert (find w1 id = None) as ->.
  { apply find_None; [by apply Hempty |]. by rewrite Hp, lookup_empty. }
  by repeat wp_step.
Qed.

(** X19. The process answers every request, and never with a server
    error: whatever the telemetry and the world it starts in, wiring and
    then serving any sequence of requests returns one response per
    request, each with the JSON content type, one body and a status among
    200, 201, 400 and 404. *)
Theorem program_never_answers_500
    (telem : Telemetry) (reqs : list (Context * main.Request))
    (w : World Product) :
  ∃ resps w',
    program telem reqs w = Some (resps, w')
    ∧ length resps = length reqs
    ∧ Forall answered resps.
Proof.
  cut (wp (program telem reqs)
          (λ resps _, length resps = length reqs ∧ Forall answered resps) w).
  { intros H. apply wp_run in H as (resps & w' & Hrun & Hlen & Hall).
    by exists resps, w'. }
  unfold program, main.wire, memory.NewProductRepository.
  repeat wp_step.
  apply wp_serveAll_answered.
  intros id p Hid. cbn in Hid. by rewrite lookup_empty in Hid.
Qed.

End UseCaseMoreFacts.

(** ** What the use cases emit *)

Section EmissionRules.
Import golang telemetry runtime.
Context {Obj : Type}.
Implicit Types w : World Obj.

Lemma wp_Start_exact t ctx name (Q : Context * SpanRef → World Obj → Prop) w :
  (∀ ctx' sc w',
      storeOf w' = storeOf w →
      measurements w' = measurements w →
      stdout w' = stdout w →
      spans w' = spans w ++ [ {| spanName := name; spanContext := sc;
                                 spanCalls := [] |} ] →
      Q (ctx', {| spanIndex := length (spans w);
                  spanProvider := tracerProvider t |}) w') →
  wp (Start t ctx name) Q w.
Proof.
  intros HQ. unfold Start, wp, bind, newID, ret.
  destruct (IsValid (SpanFromContext ctx)); cbn; eapply HQ; reflexivity.
Qed.

Lemma wp_span_End_exact span (Q : unit → World Obj → Prop) w :
  (∀ w',
      storeOf w' = storeOf w →
      measurements w' = measurements w →
      stdout w' = stdout w →
      spans w'
      = alter (λ s, {| spanName := spanName s; spanContext := spanContext s;
                       spanCalls := spanCalls s ++ [CallEnd] |})
              (spanIndex span) (spans w) →
      Q tt w') →
  wp (span_End span) Q w.
Proof.
  intros HQ. unfold span_End, span_call, wp, bind, modify, ret.
  destruct (traceExporter (spanProvider span)); cbn; by apply HQ.
Qed.

Lemma wp_Add_exact c ctx n attrs (Q : unit → World Obj → Prop) w :
  (∀ w',
      storeOf w' = storeOf w →
      measurements w'
      = measurements w ++ [ {| instrument := counterName c; amount := n;
                               labels := attrs |} ] →
      stdout w' = stdout w →
      spans w' = spans w →
      Q tt w') →
  wp (Add c ctx n attrs) Q w.
Proof.
  intros HQ. unfold Add, wp, bind, modify, ret.
  destruct (otlpReader (counterProvider c)); cbn; by apply HQ.
Qed.

Lemma alter_newest {A} (g : A → A) (l : list A) x r :
  alter g (length l) (l ++ x :: r) = l ++ g x :: r.
Proof.
  rewrite <- (Nat.add_0_r (length l)) at 1. by rewrite alter_app_r.
Qed.

Lemma alter_second {A} (g : A → A) (l : list A) x x' y r :
  alter g (length (l ++ [x])) (l ++ x' :: y :: r) = l ++ x' :: g y :: r.
Proof.
  rewrite length_app. cbn [length]. by rewrite alter_app_r.
Qed.

Lemma wp_NewProduct_exact name description price Q
    (w : World domain.Product) :
  Q (if bool_decide (name = "") then inl domain.ErrInvalidProductName
     else if PrimFloat.leb price 0 then inl domain.ErrInvalidProductPrice
     else inr (length (heap w)))
    (set_heap
       (λ h, h ++ [ {| domain.ID := uuid_source (sources w) (uuid_calls w);
                       domain.Name := name;
                       domain.Description := description;
                       domain.Price := price;
                       domain.CreatedAt := clock_source (sources w) (clock_calls w);
                       domain.UpdatedAt :=
                         clock_source (sources w) (S (clock_calls w)) |} ])
       (set_clock_calls S (set_clock_calls S (set_uuid_calls S w)))) →
  wp (domain.NewProduct name description price) Q w.
Proof.
  intros HQ. unfold domain.NewProduct, domain.Validate.
  repeat wp_step.
  eapply wp_load; [cbn; apply lookup_new |].
  cbn [domain.Name domain.Price].
  destruct (bool_decide (name = "")); [by repeat wp_step |].
  destruct (PrimFloat.leb price 0); by repeat wp_step.
Qed.

End EmissionRules.

(** One step of a [wp] proof that keeps what is emitted: a telemetry step
    is run by its effect on the measurements, the output and the spans. *)
Ltac emit_step :=
  lazymatch goal with
  | |- wp (runtime.bind _ _) _ _ => apply wp_bind
  | |- wp (runtime.ret _) _ _ => apply wp_ret
  | |- wp (runtime.Start _ _ _) _ _ =>
      apply wp_Start_exact; intros ? ? ? ? ? ? ?
  | |- wp (runtime.span_End _) _ _ => apply wp_span_End_exact; intros ? ? ? ? ?
  | |- wp (runtime.Add _ _ _ _) _ _ => apply wp_Add_exact; intros ? ? ? ? ?
  | |- wp (runtime.SetAttributes _ _) _ _ => apply wp_modify
  | |- wp (runtime.RecordError _ _) _ _ => apply wp_modify
  | |- wp (runtime.SetStatus _ _ _) _ _ => apply wp_modify
  | |- wp (runtime.InfoContext _ _ _ _) _ _ => apply wp_modify
  | |- wp (runtime.DebugContext _ _ _ _) _ _ => apply wp_modify
  | |- wp (runtime.WarnContext _ _ _ _) _ _ => apply wp_modify
  | |- wp (runtime.ErrorContext _ _ _ _) _ _ => apply wp_modify
  | |- wp (runtime.modify _) _ _ => apply wp_modify
  | |- wp (runtime.gets _) _ _ => apply wp_gets
  | |- wp (runtime.new _) _ _ => apply wp_new
  | |- wp runtime.uuid_New _ _ => apply wp_uuid_New
  | |- wp runtime.time_Now _ _ => apply wp_time_Now
  | |- wp (match ?x with (_, _) => _ end) _ _ => destruct x
  | |- wp (let '(_, _) := ?x in _) _ _ => destruct x
  end.

(** Rewrite every field of the later worlds down to the initial one. *)
Ltac world_rewrite :=
  store_eqs;
  repeat first
    [ progress cbn [runtime.sources runtime.heap runtime.products
                    runtime.uuid_calls runtime.clock_calls runtime.id_calls
                    runtime.spans runtime.stdout runtime.measurements
                    runtime.exported runtime.set_heap runtime.set_products
                    runtime.set_uuid_calls runtime.set_clock_calls
                    runtime.set_id_calls runtime.set_spans runtime.set_stdout
                    runtime.set_measurements runtime.set_exported
                    runtime.spanIndex]
    | match goal with
      | H : runtime.heap ?w = _ |- context [runtime.heap ?w] => rewrite H
      | H : runtime.products ?w = _ |- context [runtime.products ?w] =>
          rewrite H
      | H : runtime.uuid_calls ?w = _ |- context [runtime.uuid_calls ?w] =>
          rewrite H
      | H : runtime.clock_calls ?w = _ |- context [runtime.clock_calls ?w] =>
          rewrite H
      | H : runtime.sources ?w = _ |- context [runtime.sources ?w] =>
          rewrite H
      | H : runtime.measurements ?w = _
        |- context [runtime.measurements ?w] => rewrite H
      | H : runtime.stdout ?w = _ |- context [runtime.stdout ?w] => rewrite H
      | H : runtime.spans ?w = _ |- context [runtime.spans ?w] => rewrite H
      end ].

Ltac heads_normal :=
  rewrite !Log_line; unfold heads; rewrite !fmap_app;
  cbn [fmap list_fmap telemetry.lineLevel telemetry.lineMessage];
  rewrite <- ?app_assoc; cbn [app].

Ltac spans_normal :=
  repeat first
    [ rewrite alter_newest
    | rewrite alter_app_r; cbn [alter list_alter]
    | rewrite length_alter
    | rewrite length_app; cbn [length]
    | rewrite <- app_assoc; cbn [app] ];
  unfold spanLog; rewrite fmap_app;
  cbn [fmap list_fmap runtime.spanName runtime.spanCalls app].

Ltac emit_load := eapply wp_load; [world_rewrite; apply lookup_new |].

Section Emission.
Import golang telemetry runtime domain.

#[local] Abbreviation Service := (service.ProductService memory.ProductRepository).

(** X20. What a create emits. The use case counts one operation, labelled
    [create] and [success] or [failure], and counts a created product only
    on success, before the operation; it logs [Creating product] and then
    either the repository's and its own success line or one error line;
    and it leaves its span, and on success the repository's span after it,
    each ended once, as its last call, with the status set just before. *)
Theorem CreateProduct_emits
    (repo : memory.ProductRepository) (tracer : Tracer) (meter : Meter)
    (logger : Logger) (ctx : Context) (req : dto.CreateProductRequest)
    (w : World Product) :
  let s := service.NewProductService repo tracer meter logger in
  ∃ a w',
    service.CreateProduct s ctx req w = Some (a, w')
    ∧ measurements w'
      = measurements w
        ++ (if valid req
            then [ {| instrument := "products.created.total"; amount := 1;
                      labels := [] |};
                   {| instrument := "products.operations"; amount := 1;
                      labels := [ ("operation", String "create");
                                  ("result", String "success") ] |} ]
            else [ {| instrument := "products.operations"; amount := 1;
                      labels := [ ("operation", String "create");
                                  ("result", String "failure") ] |} ])
    ∧ heads (stdout w')
      = heads (stdout w)
        ++ (LevelInfo, "Creating product")
           :: (if valid req
               then [ (LevelInfo, "Product created in repository");
                      (LevelInfo, "Product created successfully") ]
               else [ (LevelError, "Failed to create product") ])
    ∧ spanLog (spans w')
      = spanLog (spans w)
        ++ (if valid req
            then [ ("ProductService.CreateProduct",
                    [ CallSetAttributes
                        [ ("product.name", String (dto.Name req));
                          ("product.price", Float64 (dto.Price req)) ];
                      CallSetAttributes
                        [ ("product.id", String (ID (productOf req w))) ];
                      CallSetStatus codes.Ok "Product created successfully";
                      CallEnd ]);
                   ("ProductRepository.Create",
                    [ CallSetAttributes
                        [ ("product.id", String (ID (productOf req w)));
                          ("product.name", String (dto.Name req)) ];
                      CallSetStatus codes.Ok "Product created successfully";
                      CallEnd ]) ]
            else [ ("ProductService.CreateProduct",
                    [ CallSetAttributes
                        [ ("product.name", String (dto.Name req));
                          ("product.price", Float64 (dto.Price req)) ];
                      CallRecordError
                        (if bool_decide (dto.Name req = "")
                         then ErrInvalidProductName
                         else ErrInvalidProductPrice);
                      CallSetStatus codes.Error "Validation failed";
                      CallEnd ]) ]).
Proof.
  intros s.
  cut (wp (service.CreateProduct s ctx req) (λ _ w', measurements w'
      = measurements w
        ++ (if valid req
            then [ {| instrument := "products.created.total"; amount := 1;
                      labels := [] |};
                   {| instrument := "products.operations"; amount := 1;
                      labels := [ ("operation", String "create");
                                  ("result", String "success") ] |} ]
            else [ {| instrument := "products.operations"; amount := 1;
                      labels := [ ("operation", String "create");
                                  ("result", String "failure") ] |} ])
    ∧ heads (stdout w')
      = heads (stdout w)
        ++ (LevelInfo, "Creating product")
           :: (if valid req
               then [ (LevelInfo, "Product created in repository");
                      (LevelInfo, "Product created successfully") ]
               else [ (LevelError, "Failed to create product") ])
    ∧ spanLog (spans w')
      = spanLog (spans w)
        ++ (if valid req
            then [ ("ProductService.CreateProduct",
                    [ CallSetAttributes
                        [ ("product.name", String (dto.Name req));
                          ("product.price", Float64 (dto.Price req)) ];
                      CallSetAttributes
                        [ ("product.id", String (ID (productOf req w))) ];
                      CallSetStatus codes.Ok "Product created successfully";
                      CallEnd ]);
                   ("ProductRepository.Create",
                    [ CallSetAttributes
                        [ ("product.id", String (ID (productOf req w)));
                          ("product.name", String (dto.Name req)) ];
                      CallSetStatus codes.Ok "Product created successfully";
                      CallEnd ]) ]
            else [ ("ProductService.CreateProduct",
                    [ CallSetAttributes
                        [ ("product.name", String (dto.Name req));
                          ("product.price", Float64 (dto.Price req)) ];
                      CallRecordError
                        (if bool_decide (dto.Name req = "")
                         then ErrInvalidProductName
                         else ErrInvalidProductPrice);
                      CallSetStatus codes.Error "Validation failed";
                      CallEnd ]) ])) w).
  { intros Hwp. apply wp_run in Hwp as (a & w' & Hrun & Hm). by exists a, w'. }
  unfold service.CreateProduct.
  repeat emit_step.
  apply wp_NewProduct_exact.
  unfold valid.
  destruct (bool_decide (dto.Name req = "")) eqn:Hn;
    [| destruct (PrimFloat.leb (dto.Price req) 0) eqn:Hp]; cbn [negb andb].
  - repeat emit_step. split; [| split]; world_rewrite.
    + reflexivity.
    + heads_normal. reflexivity.
    + spans_normal. reflexivity.
  - repeat emit_step. split; [| split]; world_rewrite.
    + reflexivity.
    + heads_normal. reflexivity.
    + spans_normal. reflexivity.
  - emit_step. emit_load. repeat emit_step.
    cbn [Create memory.memory_repository]. unfold memory.Create.
    repeat emit_step. emit_load. repeat emit_step. emit_load.
    repeat emit_step.
    eapply wp_ToProductResponse; [world_rewrite; apply lookup_new |].
    repeat emit_step. split; [| split]; world_rewrite.
    + by rewrite <- app_assoc.
    + heads_normal. reflexivity.
    + spans_normal. reflexivity.
Qed.

(** X21. What a lookup emits. One operation is counted, labelled [read]
    and [success] or [not_found]; the use case and the repository each
    leave one ended span, with status ok when the product is found and
    the recorded error and status error when it is not; a miss is logged
    twice at warn level, once by the repository and once by the use case. *)
Theorem GetProductByID_emits
    (repo : memory.ProductRepository) (tracer : Tracer) (meter : Meter)
    (logger : Logger) (ctx : Context) (id : string) (w : World Product) :
  wf w →
  let s := service.NewProductService repo tracer meter logger in
  ∃ a w',
    service.GetProductByID s ctx id w = Some (a, w')
    ∧ measurements w'
      = measurements w
        ++ [ {| instrument := "products.operations"; amount := 1;
                labels := [ ("operation", String "read");
                            ("result",
                             String (match find w id with
                                     | Some _ => "success"
                                     | None => "not_found"
                                     end)) ] |} ]
    ∧ heads (stdout w')
      = heads (stdout w)
        ++ (LevelInfo, "Getting product by ID")
           :: match find w id with
              | Some _ => [ (LevelDebug, "Product found in repository");
                            (LevelInfo, "Product retrieved successfully") ]
              | None => [ (LevelWarn, "Product not found");
                          (LevelWarn, "Product not found") ]
              end
    ∧ spanLog (spans w')
      = spanLog (spans w)
        ++ match find w id with
           | Some _ =>
               [ ("ProductService.GetProductByID",
                  [ CallSetAttributes [ ("product.id", String id) ];
                    CallSetStatus codes.Ok "Product retrieved successfully";
                    CallEnd ]);
                 ("ProductRepository.FindByID",
                  [ CallSetAttributes [ ("product.id", String id) ];
                    CallSetStatus codes.Ok "Product found";
                    CallEnd ]) ]
           | None =>
               [ ("ProductService.GetProductByID",
                  [ CallSetAttributes [ ("product.id", String id) ];
                    CallRecordError ErrProductNotFound;
                    CallSetStatus codes.Error "Product not found";
                    CallEnd ]);
                 ("ProductRepository.FindByID",
                  [ CallSetAttributes [ ("product.id", String id) ];
                    CallRecordError ErrProductNotFound;
                    CallSetStatus codes.Error "Product not found";
                    CallEnd ]) ]
           end.
Proof.
  intros Hwf s.
  cut (wp (service.GetProductByID s ctx id) (λ _ w', measurements w'
      = measurements w
        ++ [ {| instrument := "products.operations"; amount := 1;
                labels := [ ("operation", String "read");
                            ("result",
                             String (match find w id with
                                     | Some _ => "success"
                                     | None => "not_found"
                                     end)) ] |} ]
    ∧ heads (stdout w')
      = heads (stdout w)
        ++ (LevelInfo, "Getting product by ID")
           :: match find w id with
              | Some _ => [ (LevelDebug, "Product found in repository");
                            (LevelInfo, "Product retrieved successfully") ]
              | None => [ (LevelWarn, "Product not found");
                          (LevelWarn, "Product not found") ]
              end
    ∧ spanLog (spans w')
      = spanLog (spans w)
        ++ match find w id with
           | Some _ =>
               [ ("ProductService.GetProductByID",
                  [ CallSetAttributes [ ("product.id", String id) ];
                    CallSetStatus codes.Ok "Product retrieved successfully";
                    CallEnd ]);
                 ("ProductRepository.FindByID",
                  [ CallSetAttributes [ ("product.id", String id) ];
                    CallSetStatus codes.Ok "Product found";
                    CallEnd ]) ]
           | None =>
               [ ("ProductService.GetProductByID",
                  [ CallSetAttributes [ ("product.id", String id) ];
                    CallRecordError ErrProductNotFound;
                    CallSetStatus codes.Error "Product not found";
                    CallEnd ]);
                 ("ProductRepository.FindByID",
                  [ CallSetAttributes [ ("product.id", String id) ];
                    CallRecordError ErrProductNotFound;
                    CallSetStatus codes.Error "Product not found";
                    CallEnd ]) ]
           end) w).
  { intros Hwp. apply wp_run in Hwp as (a & w' & Hrun & Hm). by exists a, w'. }
  unfold service.GetProductByID.
  repeat emit_step.
  cbn [FindByID memory.memory_repository]. unfold memory.FindByID.
  repeat emit_step. world_rewrite.
  destruct (products w !! id) as [product |] eqn:Hfound.
  - destruct (Hwf id product Hfound) as [this Hthis].
    assert (find w id = Some this) as Hfind by (apply find_Some; eauto).
    rewrite Hfind.
    emit_step. eapply wp_load; [world_rewrite; exact Hthis |].
    repeat emit_step.
    eapply wp_ToProductResponse; [world_rewrite; exact Hthis |].
    repeat emit_step. split; [| split]; world_rewrite.
    + reflexivity.
    + heads_normal. reflexivity.
    + spans_normal. reflexivity.
  - apply (find_None w id Hwf) in Hfound. rewrite Hfound.
    repeat emit_step. split; [| split]; world_rewrite.
    + reflexivity.
    + heads_normal. reflexivity.
    + spans_normal. reflexivity.
Qed.

Lemma GetProductByID_emits_witness :
  ∃ a w',
    service.GetProductByID
      (service.NewProductService
         {| memory.tracer := service.tracer demoService;
            memory.logger := service.logger demoService |}
         (service.tracer demoService)
         {| meterProvider := MeterProvider_ demoNoOp;
            meterName := "products-api" |}
         (service.logger demoService))
      Background "no-such-id" demoStored = Some (a, w')
    ∧ labels <$> measurements w'
      = [ [ ("operation", String "read"); ("result", String "not_found") ] ].
Proof.
  destruct (GetProductByID_emits
              {| memory.tracer := service.tracer demoService;
                 memory.logger := service.logger demoService |}
              (service.tracer demoService)
              {| meterProvider := MeterProvider_ demoNoOp;
                 meterName := "products-api" |}
              (service.logger demoService)
              Background "no-such-id" demoStored demoStored_wf)
    as (a & w' & Hrun & Hm & _).
  exists a, w'. split; [exact Hrun |]. rewrite Hm. reflexivity.
Defined.

(** X22. What a listing emits. One operation is counted, labelled [list]
    and [success]; three info lines are logged; the use case and the
    repository each leave one ended span with status ok, both carrying the
    number of stored identifiers as [product.count]. *)
Theorem ListProducts_emits
    (repo : memory.ProductRepository) (tracer : Tracer) (meter : Meter)
    (logger : Logger) (ctx : Context) (w : World Product) :
  wf w →
  let s := service.NewProductService repo tracer meter logger in
  ∃ a w',
    service.ListProducts s ctx w = Some (a, w')
    ∧ measurements w'
      = measurements w
        ++ [ {| instrument := "products.operations"; amount := 1;
                labels := [ ("operation", String "list");
                            ("result", String "success") ] |} ]
    ∧ heads (stdout w')
      = heads (stdout w)
        ++ [ (LevelInfo, "Listing all products");
             (LevelInfo, "Products retrieved from repository");
             (LevelInfo, "Products listed successfully") ]
    ∧ spanLog (spans w')
      = spanLog (spans w)
        ++ [ ("ProductService.ListProducts",
              [ CallSetAttributes
                  [ ("product.count",
                     Int (Z.of_nat (size (products w)))) ];
                CallSetStatus codes.Ok "Products listed successfully";
                CallEnd ]);
             ("ProductRepository.FindAll",
              [ CallSetAttributes
                  [ ("product.count",
                     Int (Z.of_nat (size (products w)))) ];
                CallSetStatus codes.Ok "Products retrieved successfully";
                CallEnd ]) ].
Proof.
  intros Hwf s.
  cut (wp (service.ListProducts s ctx) (λ _ w', measurements w'
      = measurements w
        ++ [ {| instrument := "products.operations"; amount := 1;
                labels := [ ("operation", String "list");
                            ("result", String "success") ] |} ]
    ∧ heads (stdout w')
      = heads (stdout w)
        ++ [ (LevelInfo, "Listing all products");
             (LevelInfo, "Products retrieved from repository");
             (LevelInfo, "Products listed successfully") ]
    ∧ spanLog (spans w')
      = spanLog (spans w)
        ++ [ ("ProductService.ListProducts",
              [ CallSetAttributes
                  [ ("product.count",
                     Int (Z.of_nat (size (products w)))) ];
                CallSetStatus codes.Ok "Products listed successfully";
                CallEnd ]);
             ("ProductRepository.FindAll",
              [ CallSetAttributes
                  [ ("product.count",
                     Int (Z.of_nat (size (products w)))) ];
                CallSetStatus codes.Ok "Products retrieved successfully";
                CallEnd ]) ]) w).
  { intros Hwp. apply wp_run in Hwp as (a & w' & Hrun & Hm). by exists a, w'. }
  unfold service.ListProducts.
  repeat emit_step.
  cbn [FindAll memory.memory_repository]. unfold memory.FindAll.
  repeat emit_step.
  apply wp_ToProductResponseList.
  - world_rewrite. by apply wf_snapshot.
  - intros responses _. repeat emit_step. split; [| split]; world_rewrite.
    + reflexivity.
    + heads_normal. reflexivity.
    + spans_normal. by rewrite length_fmap, length_map_to_list.
Qed.

Lemma ListProducts_emits_witness :
  ∃ a w',
    service.ListProducts
      (service.NewProductService
         {| memory.tracer := service.tracer demoService;
            memory.logger := service.logger demoService |}
         (service.tracer demoService)
         {| meterProvider := MeterProvider_ demoNoOp;
            meterName := "products-api" |}
         (service.logger demoService))
      Background demoStored = Some (a, w')
    ∧ labels <$> measurements w'
      = [ [ ("operation", String "list"); ("result", String "success") ] ].
Proof.
  destruct (ListProducts_emits
              {| memory.tracer := service.tracer demoService;
                 memory.logger := service.logger demoService |}
              (service.tracer demoService)
              {| meterProvider := MeterProvider_ demoNoOp;
                 meterName := "products-api" |}
              (service.logger demoService)
              Background demoStored demoStored_wf)
    as (a & w' & Hrun & Hm & _).
  exists a, w'. split; [exact Hrun |]. rewrite Hm. reflexivity.
Defined.

End Emission.

(** ** The tracing middleware *)

Section TracingFacts.
Import golang telemetry runtime response middleware.
Context {Obj : Type}.

(** X23. The tracing middleware runs the chain under a new span, which
    continues the trace of the request when the request has a valid span.
    When the chain returns and has left that span alone, the middleware
    hands the chain's writer calls on and leaves the span named after
    method and path, with the request attributes, then the status code of
    the last [WriteHeader] of the chain (200 when there was none), then
    ended once. *)
Theorem TracingMiddleware_records_span (tracer : Tracer)
    (next : Context → M Obj (list WriterCall))
    (r : http_middleware.HTTPRequest) (ctx ctx1 : Context)
    (w w1 w2 : World Obj) (calls : list WriterCall) :
  let line := http_middleware.line r in
  let name := String.append "HTTP "
                (String.append (Method line)
                   (String.append " " (URLPath line))) in
  let attrs := [ ("http.method", String (Method line));
                 ("http.url", String (http_middleware.URL_String r));
                 ("http.route", String (URLPath line));
                 ("http.user_agent", String (http_middleware.UserAgent r)) ] in
  (let* (c, span) := Start tracer ctx name in
   SetAttributes span attrs ;; ret c) w = Some (ctx1, w1) →
  next ctx1 w1 = Some (calls, w2) →
  spans w2 !! length (spans w) = spans w1 !! length (spans w) →
  ∃ w',
    otel_middleware.TracingMiddleware tracer next r ctx w = Some (calls, w')
    ∧ spanLog (spans w') !! length (spans w)
      = Some (name,
              [ CallSetAttributes attrs;
                CallSetAttributes
                  [ ("http.status_code", Int (lastStatus calls)) ];
                CallEnd ])
    ∧ (spanContext <$> spans w' !! length (spans w))
      = Some (SpanFromContext ctx1)
    ∧ (IsValid (SpanFromContext ctx) = true →
       TraceID (SpanFromContext ctx1) = TraceID (SpanFromContext ctx))
    ∧ length (spans w') = length (spans w2)
    ∧ storeOf w' = storeOf w2.
Proof.
  intros line name attrs Hstart Hnext Hkept.
  unfold otel_middleware.TracingMiddleware.
  fold line. fold name. fold attrs.
  revert Hstart.
  unfold Start, SetAttributes, span_End, span_call, bind, newID, modify, ret.
  destruct (IsValid (SpanFromContext ctx)) eqn:Hvalid;
    cbn [spanIndex spanProvider spans set_spans set_id_calls sources id_calls];
    intros [= Hctx1 Hw1]; subst ctx1 w1; rewrite Hnext;
    rewrite served_statusCode; fold (lastStatus calls);
    cbn [spans set_spans set_id_calls] in Hkept;
    rewrite alter_newest in Hkept; rewrite lookup_new in Hkept;
    (destruct (traceExporter (tracerProvider tracer)); eexists;
     (split; [reflexivity |]); cbn [spans set_spans set_exported];
     unfold spanLog;
     rewrite list_lookup_fmap, !list_lookup_alter_eq, Hkept, !length_alter;
     by repeat split).
Qed.

End TracingFacts.

Lemma TracingMiddleware_records_span_witness :
  ∃ w',
    otel_middleware.TracingMiddleware (service.tracer demoService)
      (λ _, runtime.ret [response.WriteHeader 404])
      {| http_middleware.line :=
           {| middleware.Method := "GET";
              middleware.URLPath := "/products/42";
              middleware.Host := "localhost:8080" |};
         http_middleware.RawQuery := "";
         http_middleware.URL_String := "/products/42";
         http_middleware.RemoteAddr := "127.0.0.1:51234";
         http_middleware.UserAgent := "curl/8.5.0" |}
      telemetry.Background demoWorld
    = Some ([response.WriteHeader 404], w')
    ∧ spanLog (runtime.spans w') !! 0
      = Some ("HTTP GET /products/42",
              [ runtime.CallSetAttributes
                  [ ("http.method", telemetry.String "GET");
                    ("http.url", telemetry.String "/products/42");
                    ("http.route", telemetry.String "/products/42");
                    ("http.user_agent", telemetry.String "curl/8.5.0") ];
                runtime.CallSetAttributes
                  [ ("http.status_code", telemetry.Int 404) ];
                runtime.CallEnd ]).
Proof.
  pose (sc := {| telemetry.TraceID := "4bf92f3577b34da6a3ce929d0e0e4736";
                 telemetry.SpanID := "53995c3f42cd8ad8" |}).
  pose (w1 := runtime.set_spans
                (λ _, [ {| runtime.spanName := "HTTP GET /products/42";
                           runtime.spanContext := sc;
                           runtime.spanCalls :=
                             [ runtime.CallSetAttributes
                                 [ ("http.method", telemetry.String "GET");
                                   ("http.url",
                                    telemetry.String "/products/42");
                                   ("http.route",
                                    telemetry.String "/products/42");
                                   ("http.user_agent",
                                    telemetry.String "curl/8.5.0") ] ] |} ])
                (runtime.set_id_calls (λ _, 2) demoWorld)).
  destruct (TracingMiddleware_records_span (service.tracer demoService)
              (λ _, runtime.ret [response.WriteHeader 404])
              {| http_middleware.line :=
                   {| middleware.Method := "GET";
                      middleware.URLPath := "/products/42";
                      middleware.Host := "localhost:8080" |};
                 http_middleware.RawQuery := "";
                 http_middleware.URL_String := "/products/42";
                 http_middleware.RemoteAddr := "127.0.0.1:51234";
                 http_middleware.UserAgent := "curl/8.5.0" |}
              telemetry.Background
              (telemetry.ContextWithSpan telemetry.Background sc)
              demoWorld w1 w1 [response.WriteHeader 404])
    as (w' & Hrun & Hspan & _).
  - reflexivity.
  - reflexivity.
  - reflexivity.
  - exists w'. split; [exact Hrun | exact Hspan].
Defined.

(** ** Starting the telemetry *)

Section StartupFacts.
Import golang telemetry runtime.

(** X24. The process gives up at start-up exactly when export is enabled
    and the tracer provider or one of the four constructors behind the
    meter provider fails. When it starts with export enabled, its metrics
    go to the configured endpoint and to the Prometheus reader, and its
    logger is the one that adds the trace context; when it starts with
    export disabled, it has no span exporter and no metric reader at all,
    and the library is not consulted. *)
Theorem startup_gives_up_exactly_on_a_failed_constructor
    (lib : Library) (cfg : config.Config) (out : list LogLine) :
  let otlp := config.OTLP cfg in
  ((main.telemetryOf lib cfg out).1 = None
   ↔ config.Enabled otlp = true
     ∧ ((∃ err, initTracerProvider lib otlp = inl err)
        ∨ is_Some (resource_New lib)
        ∨ is_Some (grpc_NewClient lib (config.Endpoint otlp))
        ∨ is_Some (otlpmetricgrpc_New lib)
        ∨ is_Some (prometheusExporter_New lib)))
  ∧ (∀ telem,
        (main.telemetryOf lib cfg out).1 = Some telem →
        if config.Enabled otlp
        then initTracerProvider lib otlp = inr (TracerProvider_ telem)
             ∧ MeterProvider_ telem
               = {| otlpReader := Some (config.Endpoint otlp);
                    prometheusReader := true |}
             ∧ Logger_ telem = initLogger otlp
        else telem = (NewNoOpTelemetry otlp out).1
             ∧ traceExporter (TracerProvider_ telem) = None
             ∧ MeterProvider_ telem
               = {| otlpReader := None; prometheusReader := false |}).
Proof.
  intros otlp. unfold main.telemetryOf, NewTelemetry, initMeterProvider.
  fold otlp.
  destruct (config.Enabled otlp); cbn [fst].
  - destruct (initTracerProvider lib otlp) as [err | tp];
      [| destruct (resource_New lib) as [err |];
         [| destruct (grpc_NewClient lib (config.Endpoint otlp)) as [err |];
            [| destruct (otlpmetricgrpc_New lib) as [err |];
               [| destruct (prometheusExporter_New lib) as [err |]]]]];
      cbn [fst]; (split; [| by intros telem [= <-]]).
    + split; [intros _; split; [done | left; by eexists] | done].
    + split; [intros _; split; [done | right; left; by eexists] | done].
    + split; [intros _; split; [done | do 2 right; left; by eexists] | done].
    + split; [intros _; split; [done | do 3 right; left; by eexists] | done].
    + split; [intros _; split; [done | do 4 right; by eexists] | done].
    + split; [done |]. intros [_ Hfail].
      destruct Hfail as [[err Herr] | [[err Herr] | [[err Herr] |
                         [[err Herr] | [err Herr]]]]]; done.
  - split; [by split; [| intros [? _]] |]. by intros telem [= <-].
Qed.

End StartupFacts.
